(** * College Event Management System: reservation and approval engine

    A shallow embedding of the booking, capacity, conflict and event-admission
    logic of [app.py].  The SQLAlchemy tables are lists of rows in insertion
    order, a request handler is a function from the world before the request
    to the world after it together with the HTTP response, and everything the
    handlers obtain from outside (rendering libraries, the SMTP transport,
    fresh ticket tokens) is an explicit input. *)

From Stdlib Require Import ZArith List Ascii String Bool Lia.
Import ListNotations.
Local Open Scope string_scope.
Local Open Scope Z_scope.

(** ** Python truthiness of nullable columns and form values *)

(** [x and ...] on a nullable integer: [None] and [0] are falsy. *)
Definition truthy_int (x : option Z) : bool :=
  match x with
  | Some n => negb (n =? 0)
  | None => false
  end.

(** [x and ...] on a nullable string: [None] and the empty string are falsy. *)
Definition truthy_str (x : option string) : bool :=
  match x with
  | Some s => negb (String.eqb s "")
  | None => false
  end.

(** [x in (a, b, ...)] on strings. *)
Definition str_in (x : string) (l : list string) : bool :=
  existsb (String.eqb x) l.

(** ** Models *)

Module User.
Record t := mk {
  id : Z;
  email : option string;
  full_name : option string;
  role : string;
  active : bool
}.
End User.

Module Hall.
Record t := mk {
  id : Z;
  name : string;
  capacity : option Z;
  status : string;
  location : option string
}.
End Hall.

Module Event.
Record t := mk {
  id : Z;
  title : string;
  description : option string;
  category_id : option string;
  hall_id : Z;
  organizer_id : Z;
  capacity : option Z;
  start_time : Z;
  end_time : Z;
  poster_path : option string;
  invitation_path : option string;
  status : string;
  requires_faculty_approval : bool;
  club_id : Z
}.

Definition set_status (e : t) (s : string) : t :=
  mk (id e) (title e) (description e) (category_id e) (hall_id e)
     (organizer_id e) (capacity e) (start_time e) (end_time e)
     (poster_path e) (invitation_path e) s (requires_faculty_approval e)
     (club_id e).
End Event.

Module Booking.
Record t := mk {
  id : Z;
  ticket_id : string;
  user_id : Z;
  event_id : Z;
  status : string;
  faculty_approved : bool;
  organizer_approved : bool;
  qr_path : option string;
  pdf_path : option string
}.

Definition set_status (b : t) (s : string) : t :=
  mk (id b) (ticket_id b) (user_id b) (event_id b) s
     (faculty_approved b) (organizer_approved b) (qr_path b) (pdf_path b).

Definition set_faculty_approved (b : t) (v : bool) : t :=
  mk (id b) (ticket_id b) (user_id b) (event_id b) (status b)
     v (organizer_approved b) (qr_path b) (pdf_path b).

Definition set_organizer_approved (b : t) (v : bool) : t :=
  mk (id b) (ticket_id b) (user_id b) (event_id b) (status b)
     (faculty_approved b) v (qr_path b) (pdf_path b).

Definition set_qr_path (b : t) (p : option string) : t :=
  mk (id b) (ticket_id b) (user_id b) (event_id b) (status b)
     (faculty_approved b) (organizer_approved b) p (pdf_path b).

Definition set_pdf_path (b : t) (p : option string) : t :=
  mk (id b) (ticket_id b) (user_id b) (event_id b) (status b)
     (faculty_approved b) (organizer_approved b) (qr_path b) p.
End Booking.

(** ** The persistence store *)

Record DB := mkDB {
  users : list User.t;
  halls : list Hall.t;
  events : list Event.t;
  bookings : list Booking.t
}.

(** A message handed to [mail.send]; its text is left out. *)
Record Msg := mkMsg {
  recipient : string;
  subject : string;
  attachments : list string
}.

(** The store and the messages sent so far, oldest first. *)
Record World := mkWorld {
  db : DB;
  outbox : list Msg
}.

(** What the process finds around it: the optional libraries, whether a
    rendering or a delivery succeeds, the mail configuration, and which
    stored paths name a file that is there to be read ([os.path.exists]
    under [BASE_DIR]). *)
Record Runtime := mkRuntime {
  qrcode : bool;
  qr_saved : string -> bool;
  have_reportlab : bool;
  pdf_drawn : string -> Event.t -> Booking.t -> bool;
  mail : bool;
  MAIL_SERVER : string;
  smtp_accepts : string -> bool;
  path_exists : string -> bool
}.

(** SQLite's INTEGER is a signed 64-bit integer: handing it a Python [int]
    outside that range raises [OverflowError]. *)
Definition fits_integer (n : Z) : bool :=
  (- 2 ^ 63 <=? n) && (n <? 2 ^ 63).

Definition get_user (d : DB) (i : Z) : option User.t :=
  find (fun u => User.id u =? i) (users d).

Definition get_hall (d : DB) (i : Z) : option Hall.t :=
  find (fun h => Hall.id h =? i) (halls d).

Definition get_event (d : DB) (i : Z) : option Event.t :=
  find (fun e => Event.id e =? i) (events d).

Definition get_booking (d : DB) (i : Z) : option Booking.t :=
  find (fun b => Booking.id b =? i) (bookings d).

(** The integer primary key given to a new row: one above the largest. *)
Definition next_id (ids : list Z) : Z :=
  1 + fold_right Z.max 0 ids.

(** [db.session.add(row)] followed by a flush or commit. *)
Definition add_event (d : DB) (e : Event.t) : DB :=
  mkDB (users d) (halls d) (events d ++ [e]) (bookings d).

Definition add_booking (d : DB) (b : Booking.t) : DB :=
  mkDB (users d) (halls d) (events d) (bookings d ++ [b]).

(** Committing a mutated ORM object writes it over the row of its key. *)
Definition put_booking (d : DB) (b : Booking.t) : DB :=
  mkDB (users d) (halls d) (events d)
       (map (fun x => if Booking.id x =? Booking.id b then b else x)
            (bookings d)).

Definition put_event (d : DB) (e : Event.t) : DB :=
  mkDB (users d) (halls d)
       (map (fun x => if Event.id x =? Event.id e then e else x) (events d))
       (bookings d).

(** ** Ticket artifacts and mail *)

Definition TICKET_FOLDER : string := "static/uploads/tickets/".

Definition generate_ticket_qr (rt : Runtime) (ticket_id : string)
  : option string :=
  if negb (qrcode rt) then None
  else if qr_saved rt ticket_id
       then Some (TICKET_FOLDER ++ "ticket_" ++ ticket_id ++ ".png")
       else None.

(** [event] is the booking's [event] relationship; reading a field of a
    missing one raises inside the function's own [try], which returns
    [None]. *)
Definition generate_ticket_pdf (rt : Runtime) (ticket_id : string)
    (event : option Event.t) (booking : Booking.t) : option string :=
  if negb (have_reportlab rt) then None
  else match event with
       | Some ev =>
           if pdf_drawn rt ticket_id ev booking
           then Some (TICKET_FOLDER ++ "ticket_" ++ ticket_id ++ ".pdf")
           else None
       | None => None
       end.

Definition option_list {A : Type} (x : option A) : list A :=
  match x with
  | Some a => [a]
  | None => []
  end.

(** What [send_ticket_email] attaches for a stored path: the file, when the
    path is set and the file is there. *)
Definition attached (rt : Runtime) (path : option string) : list string :=
  match path with
  | Some p => if truthy_str path && path_exists rt p then [p] else []
  | None => []
  end.

(** The messages [send_ticket_email] gets delivered: none or one. *)
Definition send_ticket_email (rt : Runtime) (to : string)
    (event : option Event.t) (booking : Booking.t) : list Msg :=
  if negb (mail rt) || String.eqb (MAIL_SERVER rt) "" then []
  else match event with
       | Some ev =>
           if smtp_accepts rt to
           then [mkMsg to ("Ticket for " ++ Event.title ev)
                       (attached rt (Booking.qr_path booking)
                        ++ attached rt (Booking.pdf_path booking))%list]
           else []
       | None => []
       end.

(** The messages [send_notification_email] gets delivered, one attempt per
    recipient. *)
Definition send_notification_email (rt : Runtime) (subj : string)
    (recipients : list string) : list Msg :=
  if negb (mail rt) || String.eqb (MAIL_SERVER rt) "" then []
  else map (fun r => mkMsg r subj [])
           (filter (smtp_accepts rt) recipients).

(** ** Finalization *)

(** [finalize_booking_if_ready(booking)]: the booking as the call leaves it
    and the ticket mail it sent.  [event] and [owner] are the booking's
    [event] and [user] relationships. *)
Definition finalize_booking_if_ready (rt : Runtime) (event : option Event.t)
    (owner : option User.t) (booking : Booking.t) : Booking.t * list Msg :=
  let ev := event in
  let faculty_ok := Booking.faculty_approved booking in
  let organizer_ok := Booking.organizer_approved booking in
  if faculty_ok && organizer_ok
     && negb (String.eqb (Booking.status booking) "confirmed")
  then
    let b1 := Booking.set_status booking "confirmed" in
    let b2 := if qrcode rt
              then Booking.set_qr_path b1
                     (generate_ticket_qr rt (Booking.ticket_id b1))
              else b1 in
    let b3 := match generate_ticket_pdf rt (Booking.ticket_id b2) ev b2 with
              | Some pdf => Booking.set_pdf_path b2 (Some pdf)
              | None => b2
              end in
    let sent :=
      match owner with
      | Some u =>
          match User.email u with
          | Some addr =>
              if mail rt && negb (String.eqb addr "")
              then send_ticket_email rt addr ev b3
              else []
          | None => []
          end
      | None => []
      end in
    (b3, sent)
  else (booking, []).

(** ** Capacity *)

Definition is_confirmed_for (event_id : Z) (b : Booking.t) : bool :=
  (Booking.event_id b =? event_id) && String.eqb (Booking.status b) "confirmed".

Definition seats_taken (d : DB) (event_id : Z) : Z :=
  Z.of_nat (List.length (filter (is_confirmed_for event_id) (bookings d))).

Definition seats_available (d : DB) (event : Event.t) : option Z :=
  let event_cap :=
    if truthy_int (Event.capacity event)
    then match Event.capacity event with
         | Some c => if c >? 0 then Some c else None
         | None => None
         end
    else None in
  let hall_cap :=
    match get_hall d (Event.hall_id event) with
    | Some hall =>
        if truthy_int (Hall.capacity hall)
        then match Hall.capacity hall with
             | Some c => if c >? 0 then Some c else None
             | None => None
             end
        else None
    | None => None
    end in
  let effective :=
    match event_cap with
    | Some c => Some c
    | None => match hall_cap with
              | Some c => Some c
              | None => None
              end
    end in
  match effective with
  | None => None
  | Some c => Some (Z.max 0 (c - seats_taken d (Event.id event)))
  end.

(** ** Schedule conflicts *)

(** The query both [create_event] and [admin_approve_event] run: approved
    events of the hall whose interval overlaps [st, et).  [create_event]
    passes no [exclude]; [admin_approve_event] excludes the event under
    approval ([Event.id != ev.id]). *)
Definition conflicts (d : DB) (hall_id st et : Z) (exclude : option Z)
  : list Event.t :=
  filter (fun e =>
            (Event.hall_id e =? hall_id)
            && String.eqb (Event.status e) "approved"
            && (Event.start_time e <? et)
            && (Event.end_time e >? st)
            && match exclude with
               | Some x => negb (Event.id e =? x)
               | None => true
               end)
         (events d).

(** [if conflicts:], the truth value of the list the query returns. *)
Definition has_conflict (d : DB) (hall_id st et : Z) (exclude : option Z)
  : bool :=
  match conflicts d hall_id st et exclude with
  | [] => false
  | _ :: _ => true
  end.

(** ** Responses *)

Inductive Payload : Type :=
| Error (message : string)
| AlreadyBooked (booking_id : Z)
| Booked (booking_id : Z) (ticket_id : string) (qr_url : option string).

Inductive Response : Type :=
| Json (payload : Payload) (code : Z)
| Redirect (endpoint : string) (arg : option Z) (flash : string)
| Abort (code : Z).

(** [get_or_404] when no row has the key: 404, unless the key cannot be
    bound to the query, which raises and ends the request with a server
    error.  A stored key fits, so such a key never finds a row. *)
Definition not_found (key : Z) : Response :=
  if fits_integer key then Abort 404 else Abort 500.

(** The [role_required] decorator, for a logged-in user. *)
Definition role_required (roles : list string) (current_user : User.t)
    (w : World) (view : World * Response) : World * Response :=
  if negb (str_in (User.role current_user) roles)
  then (w, Redirect "index" None "Access denied: insufficient permissions")
  else view.

(** ** Event admission *)

(** A form value after [int(...)] or [datetime.fromisoformat(...)]: the field
    is missing or empty, does not parse, or parses to [a]. *)
Inductive parsed (A : Type) : Type :=
| absent
| malformed
| value (a : A).
Arguments absent {A}.
Arguments malformed {A}.
Arguments value {A} a.

Definition is_absent {A : Type} (x : parsed A) : bool :=
  match x with
  | absent => true
  | _ => false
  end.

(** An uploaded file: what [allowed_file] says of its name and what
    [save_uploaded_file] returns for it. *)
Record Upload := mkUpload {
  allowed : bool;
  saved : option string
}.

Definition store_upload (u : option Upload) : option string :=
  match u with
  | Some f => if allowed f then saved f else None
  | None => None
  end.

Module EventForm.
Record t := mk {
  title : option string;
  description : option string;
  category_id : option string;
  hall_id : parsed Z;
  capacity : parsed Z;
  start_time : parsed Z;
  end_time : parsed Z;
  poster : option Upload;
  invitation : option Upload;
  requires_faculty : option string;
  club_id : parsed Z
}.

Definition set_requires_faculty (f : t) (v : option string) : t :=
  mk (title f) (description f) (category_id f) (hall_id f) (capacity f)
     (start_time f) (end_time f) (poster f) (invitation f) v (club_id f).
End EventForm.

Definition int_or_zero (x : parsed Z) : Z :=
  match x with
  | value n => n
  | _ => 0
  end.

Definition student_emails (d : DB) : list string :=
  flat_map (fun u =>
              if String.eqb (User.role u) "student" && User.active u
                 && truthy_str (User.email u)
              then option_list (User.email u)
              else [])
           (users d).

(** The flash of [create_event]'s outer [except]; the exception's text
    follows it in the source. *)
Definition failed_flash : string := "Failed to create event".

(** The POST branch of [create_event].  The branch runs in one [try].  An
    integer that SQLite cannot hold makes the request raise: the hall key in
    [Hall.query.get], the capacity or the club number in the commit.  The
    outer [except] then flashes [failed_flash] and the row that was added to
    the session is never stored. *)
Definition create_event (rt : Runtime) (w : World) (current_user : User.t)
    (form : EventForm.t) : World * Response :=
  role_required ["organizer"; "admin"] current_user w
    (let requires_faculty := truthy_str (EventForm.requires_faculty form) in
     let back msg := (w, Redirect "create_event" None msg) in
     match EventForm.title form, EventForm.hall_id form,
           EventForm.start_time form, EventForm.end_time form with
     | None, _, _, _ | _, absent, _, _ | _, _, absent, _ | _, _, _, absent =>
         back "Missing required fields"
     | Some title, hall_id_raw, start_time, end_time =>
         if String.eqb title "" then back "Missing required fields" else
         match hall_id_raw with
         | value hall_id =>
             let capacity := int_or_zero (EventForm.capacity form) in
             match start_time, end_time with
             | value st, value et =>
                 if st >=? et then back "Start must be before end" else
                 match get_hall (db w) hall_id with
                 | None =>
                     if fits_integer hall_id then back "Invalid hall"
                     else back failed_flash
                 | Some hall =>
                     if String.eqb (Hall.status hall) "blocked"
                     then back "Hall is currently blocked"
                     else if has_conflict (db w) hall_id st et None
                     then back "Time conflict with another approved event"
                     else
                       let poster_path :=
                         store_upload (EventForm.poster form) in
                       let invitation_path :=
                         store_upload (EventForm.invitation form) in
                       let club_id_val :=
                         int_or_zero (EventForm.club_id form) in
                       let ev :=
                         Event.mk (next_id (map Event.id (events (db w))))
                                  title (EventForm.description form)
                                  (if truthy_str (EventForm.category_id form)
                                   then EventForm.category_id form else None)
                                  hall_id (User.id current_user)
                                  (Some capacity) st et
                                  poster_path invitation_path "approved"
                                  true club_id_val in
                       if negb (fits_integer capacity
                                && fits_integer club_id_val)
                       then back failed_flash
                       else
                       let students := student_emails (db w) in
                       let sent :=
                         match students with
                         | [] => []
                         | _ :: _ =>
                             send_notification_email rt
                               ("New Event Created: " ++ Event.title ev)
                               students
                         end in
                       (mkWorld (add_event (db w) ev) (outbox w ++ sent),
                        Redirect "event_detail" (Some (Event.id ev))
                          "Event created successfully! Students can now book.")
                 end
             | _, _ => back "Invalid date format. Use ISO: YYYY-MM-DDTHH:MM"
             end
         | _ => back "Invalid hall selection"
         end
     end).

(** [admin_approve_event(event_id)]. *)
Definition admin_approve_event (w : World) (current_user : User.t)
    (event_id : Z) : World * Response :=
  role_required ["admin"] current_user w
    (match get_event (db w) event_id with
     | None => (w, not_found event_id)
     | Some ev =>
         match get_hall (db w) (Event.hall_id ev) with
         | None => (w, Abort 500)
         | Some hall =>
             if String.eqb (Hall.status hall) "blocked"
             then (w, Redirect "event_detail" (Some event_id)
                        "Hall is blocked, cannot approve")
             else if has_conflict (db w) (Event.hall_id ev)
                       (Event.start_time ev) (Event.end_time ev)
                       (Some (Event.id ev))
             then (w, Redirect "event_detail" (Some event_id)
                        "Conflict detected; cannot approve")
             else (mkWorld (put_event (db w) (Event.set_status ev "approved"))
                           (outbox w),
                   Redirect "event_detail" (Some event_id) "Event approved")
         end
     end).

(** ** Booking and tickets *)

(** [os.path.basename]: what follows the last slash. *)
Fixpoint basename_from (acc s : string) : string :=
  match s with
  | EmptyString => acc
  | String c r =>
      if Ascii.eqb c "/"%char then basename_from EmptyString r
      else basename_from (acc ++ String c EmptyString) r
  end.

Definition basename (s : string) : string := basename_from EmptyString s.

(** The first non-cancelled booking of the user for the event. *)
Definition existing_booking (d : DB) (user_id event_id : Z)
  : option Booking.t :=
  find (fun b =>
          (Booking.user_id b =? user_id)
          && (Booking.event_id b =? event_id)
          && negb (String.eqb (Booking.status b) "cancelled"))
       (bookings d).

Definition faculty_emails (d : DB) : list string :=
  flat_map (fun u =>
              if String.eqb (User.role u) "faculty" && User.active u
                 && truthy_str (User.email u)
              then option_list (User.email u)
              else [])
           (users d).

(** The notifications [book_event] sends once the row is committed.
    [list(set(recipients))] keeps one copy of each address; Python leaves the
    order open, here the last occurrences stay in place. *)
Definition booking_notifications (rt : Runtime) (d : DB)
    (current_user : User.t) (ev : Event.t) : list Msg :=
  let organizer :=
    match get_user d (Event.organizer_id ev) with
    | Some o => if truthy_str (User.email o) then option_list (User.email o)
                else []
    | None => []
    end in
  let recipients := (organizer ++ faculty_emails d)%list in
  let to_student :=
    if truthy_str (User.email current_user)
    then send_notification_email rt
           ("Booking received for " ++ Event.title ev)
           (option_list (User.email current_user))
    else [] in
  let to_staff :=
    match recipients with
    | [] => []
    | _ :: _ =>
        send_notification_email rt ("Booking pending: " ++ Event.title ev)
          (nodup string_dec recipients)
    end in
  (to_student ++ to_staff)%list.

(** [book_event(event_id)]; [fresh_ticket] is the [uuid4] drawn for the new
    row. *)
Definition book_event (rt : Runtime) (w : World) (current_user : User.t)
    (event_id : Z) (fresh_ticket : string) : World * Response :=
  match get_event (db w) event_id with
  | None => (w, not_found event_id)
  | Some ev =>
      if negb (str_in (User.role current_user)
                 ["student"; "faculty"; "organizer"; "admin"])
      then (w, Json (Error "role not allowed to book") 403)
      else if negb (String.eqb (Event.status ev) "approved")
              && negb (String.eqb (User.role current_user) "admin")
      then (w, Json (Error "event not open for booking") 400)
      else
        let avail := seats_available (db w) ev in
        if match avail with
           | Some a => a <=? 0
           | None => false
           end
        then (w, Json (Error "sold_out") 409)
        else
          match existing_booking (db w) (User.id current_user) (Event.id ev)
          with
          | Some existing => (w, Json (AlreadyBooked (Booking.id existing)) 200)
          | None =>
              let booking :=
                Booking.mk (next_id (map Booking.id (bookings (db w))))
                           fresh_ticket (User.id current_user) (Event.id ev)
                           "pending" false false None None in
              let booking :=
                if negb (Event.requires_faculty_approval ev)
                   && str_in (User.role current_user) ["organizer"; "admin"]
                then Booking.set_organizer_approved booking true
                else booking in
              let d1 := add_booking (db w) booking in
              let notes := booking_notifications rt d1 current_user ev in
              let (booking', sent) :=
                finalize_booking_if_ready rt (Some ev) (Some current_user)
                  booking in
              (mkWorld (put_booking d1 booking')
                       (outbox w ++ notes ++ sent),
               Json (Booked (Booking.id booking')
                            (Booking.ticket_id booking')
                            (match Booking.qr_path booking' with
                             | Some p =>
                                 if String.eqb p "" then None
                                 else Some ("/uploads/" ++ basename p)%string
                             | None => None
                             end))
                    201)
          end
  end.

(** [cancel_booking(booking_id)]. *)
Definition cancel_booking (w : World) (current_user : User.t)
    (booking_id : Z) : World * Response :=
  match get_booking (db w) booking_id with
  | None => (w, not_found booking_id)
  | Some b =>
      if negb (Booking.user_id b =? User.id current_user)
         && negb (str_in (User.role current_user) ["admin"])
      then (w, Abort 403)
      else (mkWorld (put_booking (db w) (Booking.set_status b "cancelled"))
                    (outbox w),
            Redirect "event_detail" (Some (Booking.event_id b))
              "Booking cancelled")
  end.

(** [organizer_approve_booking(booking_id)]. *)
Definition organizer_approve_booking (rt : Runtime) (w : World)
    (current_user : User.t) (booking_id : Z) : World * Response :=
  role_required ["organizer"; "admin"] current_user w
    (match get_booking (db w) booking_id with
     | None => (w, not_found booking_id)
     | Some b =>
         let event := get_event (db w) (Booking.event_id b) in
         let approve :=
           let b1 := Booking.set_organizer_approved b true in
           let (b2, sent) :=
             finalize_booking_if_ready rt event
               (get_user (db w) (Booking.user_id b)) b1 in
           (mkWorld (put_booking (db w) b2) (outbox w ++ sent),
            Redirect "organizer_bookings" None "Booking approved by organizer")
         in
         if negb (String.eqb (User.role current_user) "admin")
         then match event with
              | None => (w, Abort 500)
              | Some ev =>
                  if negb (User.id current_user =? Event.organizer_id ev)
                  then (w, Abort 403)
                  else approve
              end
         else approve
     end).

(** [faculty_approve_booking(booking_id)]. *)
Definition faculty_approve_booking (rt : Runtime) (w : World)
    (current_user : User.t) (booking_id : Z) : World * Response :=
  role_required ["faculty"] current_user w
    (match get_booking (db w) booking_id with
     | None => (w, not_found booking_id)
     | Some b =>
         match get_event (db w) (Booking.event_id b) with
         | None => (w, Abort 500)
         | Some ev =>
             if negb (Event.requires_faculty_approval ev)
             then (w, Redirect "faculty_bookings" None
                        "This booking does not require faculty approval.")
             else
               let b1 := Booking.set_faculty_approved b true in
               let (b2, sent) :=
                 finalize_booking_if_ready rt (Some ev)
                   (get_user (db w) (Booking.user_id b)) b1 in
               (mkWorld (put_booking (db w) b2) (outbox w ++ sent),
                Redirect "faculty_bookings" None
                  "Booking approved! Student ticket is now confirmed.")
         end
     end).

(** * Properties *)

(** ** Scenario data *)

(** Every optional library present and mail configured. *)
Definition rt_full : Runtime :=
  mkRuntime true (fun _ => true) true (fun _ _ _ => true) true
            "smtp.example.com" (fun _ => true) (fun _ => true).

Definition admin : User.t :=
  User.mk 1 (Some "admin@example.com") (Some "Site Admin") "admin" true.
Definition organizer : User.t :=
  User.mk 2 (Some "organizer@example.com") (Some "Org One") "organizer" true.
Definition student : User.t :=
  User.mk 3 (Some "student@example.com") (Some "Student One") "student" true.
Definition faculty : User.t :=
  User.mk 4 (Some "faculty@example.com") (Some "Faculty One") "faculty" true.

Definition seed_users : list User.t := [admin; organizer; student; faculty].

Definition hall_a : Hall.t := Hall.mk 1 "A Block Hall" (Some 200) "free" (Some "A Block").
Definition hall_small : Hall.t := Hall.mk 2 "Seminar Hall 1" (Some 1) "free" (Some "Main").
Definition hall_closed : Hall.t := Hall.mk 3 "Seminar Hall 2" (Some 100) "blocked" (Some "Main").

Definition seed_halls : list Hall.t := [hall_a; hall_small; hall_closed].

(** The seed script's first event: approved, and with the column default
    [requires_faculty_approval = False]. *)
Definition tech_talk : Event.t :=
  Event.mk 1 "Tech Talk: AI in 2026" None None 1 2 (Some 150) 1000 1200
           None None "approved" false 0.

(** An approved event in the one-seat hall, with no capacity of its own. *)
Definition recital : Event.t :=
  Event.mk 2 "Recital" None None 2 2 (Some 0) 1000 1200
           None None "approved" true 0.

(** The seed script's second event, still pending, here with one seat. *)
Definition cultural_evening : Event.t :=
  Event.mk 3 "Cultural Evening" None None 1 2 (Some 1) 2000 2300
           None None "pending" true 0.

Definition seed_events : list Event.t := [tech_talk; recital; cultural_evening].

(** ** Finalization *)

Lemma finalize_without_faculty_flag rt ev owner b :
  Booking.faculty_approved b = false ->
  finalize_booking_if_ready rt ev owner b = (b, []).
Proof.
  intros Hf. unfold finalize_booking_if_ready. now rewrite Hf.
Qed.

Lemma finalize_keeps_id rt ev owner b :
  Booking.id (fst (finalize_booking_if_ready rt ev owner b)) = Booking.id b.
Proof.
  unfold finalize_booking_if_ready.
  destruct (Booking.faculty_approved b && Booking.organizer_approved b
            && negb (String.eqb (Booking.status b) "confirmed")); [|reflexivity].
  cbn [fst].
  destruct (generate_ticket_pdf _ _ _ _); destruct (qrcode rt); reflexivity.
Qed.

(** The status after the check is the status before it, or [confirmed]. *)
Lemma finalize_status rt ev owner b :
  let b' := fst (finalize_booking_if_ready rt ev owner b) in
  Booking.status b' = Booking.status b \/ Booking.status b' = "confirmed".
Proof.
  unfold finalize_booking_if_ready.
  destruct (Booking.faculty_approved b && Booking.organizer_approved b
            && negb (String.eqb (Booking.status b) "confirmed")); cbn [fst].
  - right.
    destruct (generate_ticket_pdf _ _ _ _); destruct (qrcode rt); reflexivity.
  - now left.
Qed.

(** A booking on the faculty-skip event [tech_talk] that the organizer has
    approved and no faculty member has. *)
Definition organizer_approved_booking : Booking.t :=
  Booking.mk 1 "ticket-0001" 3 1 "pending" false true None None.

(** C1 (evaluation at the failing input): on an event whose
    [requires_faculty_approval] is false, the finalization check run on a
    pending booking with [organizer_approved] true and [faculty_approved]
    false leaves the booking pending, sets no artifact and sends no mail: the
    check reads the faculty flag whatever the event's configuration. *)
Example finalize_faculty_skip_stays_pending :
  Event.requires_faculty_approval tech_talk = false
  /\ Booking.organizer_approved organizer_approved_booking = true
  /\ finalize_booking_if_ready rt_full (Some tech_talk) (Some student)
       organizer_approved_booking
     = (organizer_approved_booking, [])
  /\ Booking.status organizer_approved_booking = "pending".
Proof. repeat split. Qed.

(** The guard of the check: when it is false the booking comes back as it
    was and nothing is sent. *)
Lemma finalize_not_ready rt ev owner b :
  Booking.faculty_approved b && Booking.organizer_approved b
  && negb (String.eqb (Booking.status b) "confirmed") = false ->
  finalize_booking_if_ready rt ev owner b = (b, []).
Proof.
  intros Hguard. unfold finalize_booking_if_ready. now rewrite Hguard.
Qed.

Lemma confirmed_not_ready b :
  Booking.status b = "confirmed" ->
  Booking.faculty_approved b && Booking.organizer_approved b
  && negb (String.eqb (Booking.status b) "confirmed") = false.
Proof.
  intros Hs. rewrite Hs, String.eqb_refl. apply andb_false_r.
Qed.

(** C2: the finalization check on a booking whose status is already
    [confirmed] returns the booking as it was (status, [qr_path], [pdf_path]
    and both flags untouched) and sends no ticket mail, whatever the approval
    flags, the event and the runtime are. *)
Theorem finalize_confirmed_is_noop rt ev owner b :
  Booking.status b = "confirmed" ->
  finalize_booking_if_ready rt ev owner b = (b, []).
Proof.
  intros Hs. unfold finalize_booking_if_ready.
  rewrite Hs, String.eqb_refl. cbn [negb].
  now rewrite andb_false_r.
Qed.

Definition confirmed_booking : Booking.t :=
  Booking.mk 7 "ticket-0007" 3 2 "confirmed" true true
             (Some "static/uploads/tickets/ticket_ticket-0007.png") None.

Lemma finalize_confirmed_is_noop_witness :
  Booking.status confirmed_booking = "confirmed"
  /\ finalize_booking_if_ready rt_full (Some recital) (Some student)
       confirmed_booking
     = (confirmed_booking, []).
Proof.
  split; [reflexivity|].
  apply (finalize_confirmed_is_noop rt_full (Some recital) (Some student)
           confirmed_booking).
  reflexivity.
Defined.

(** A pending booking with both flags set does get finalized: the guard of
    the check is on the status. *)
Example finalize_fires_once :
  let b := Booking.mk 7 "ticket-0007" 3 2 "pending" true true None None in
  let (b', sent) :=
    finalize_booking_if_ready rt_full (Some recital) (Some student) b in
  Booking.status b' = "confirmed"
  /\ Booking.qr_path b' = Some "static/uploads/tickets/ticket_ticket-0007.png"
  /\ Booking.pdf_path b' = Some "static/uploads/tickets/ticket_ticket-0007.pdf"
  /\ List.length sent = 1%nat
  /\ finalize_booking_if_ready rt_full (Some recital) (Some student) b'
     = (b', []).
Proof. vm_compute. repeat split. Qed.

(** ** Capacity *)

(** A nullable capacity that is set and positive, with its value. *)
Definition set_and_positive (c : option Z) (n : Z) : Prop :=
  c = Some n /\ 0 < n.

(** The capacity of the event's venue, when the venue resolves. *)
Definition venue_capacity (d : DB) (event : Event.t) : option Z :=
  match get_hall d (Event.hall_id event) with
  | Some hall => Hall.capacity hall
  | None => None
  end.

Lemma positive_cases (c : option Z) :
  (exists n, set_and_positive c n
             /\ (if truthy_int c
                 then match c with
                      | Some k => if k >? 0 then Some k else None
                      | None => None
                      end
                 else None) = Some n)
  \/ ((forall n, ~ set_and_positive c n)
      /\ (if truthy_int c
          then match c with
               | Some k => if k >? 0 then Some k else None
               | None => None
               end
          else None) = None).
Proof.
  unfold set_and_positive. destruct c as [k|]; cbn [truthy_int].
  - destruct (Z.eqb_spec k 0) as [->|Hk]; cbn [negb].
    + right. split; [|reflexivity]. intros n [Hn Hp]. inversion Hn. lia.
    + destruct (Z.gtb_spec k 0).
      * left. exists k. repeat split. lia.
      * right. split; [|reflexivity]. intros n [Hn Hp]. inversion Hn. lia.
  - right. split; [|reflexivity]. intros n [Hn _]. discriminate.
Qed.

(** C3: [seats_available] returns [None], the unbounded sentinel, exactly when
    neither the event's capacity nor its venue's is set and positive;
    otherwise it returns [max 0 (c - taken)] with [c] the event's capacity
    when that is positive, else the venue's, and [taken] the number of
    bookings whose event is this one and whose status is [confirmed], which
    is what [seats_taken] counts; a numeric result is never negative. *)
Theorem seats_available_spec (d : DB) (event : Event.t) :
  let confirmed_here :=
    filter (fun b => (Booking.event_id b =? Event.id event)
                     && String.eqb (Booking.status b) "confirmed")
           (bookings d) in
  let taken := Z.of_nat (List.length confirmed_here) in
  (seats_available d event = None
   <-> (forall n, ~ set_and_positive (Event.capacity event) n)
       /\ (forall n, ~ set_and_positive (venue_capacity d event) n))
  /\ (forall c, set_and_positive (Event.capacity event) c ->
        seats_available d event = Some (Z.max 0 (c - taken)))
  /\ (forall c, (forall n, ~ set_and_positive (Event.capacity event) n) ->
        set_and_positive (venue_capacity d event) c ->
        seats_available d event = Some (Z.max 0 (c - taken)))
  /\ (forall r, seats_available d event = Some r -> 0 <= r)
  /\ seats_taken d (Event.id event) = taken
  /\ (forall b, In b confirmed_here
                <-> In b (bookings d)
                    /\ Booking.event_id b = Event.id event
                    /\ Booking.status b = "confirmed").
Proof.
  cbv zeta.
  assert (Hcount : forall b,
             In b (filter (fun b => (Booking.event_id b =? Event.id event)
                                    && String.eqb (Booking.status b)
                                         "confirmed")
                          (bookings d))
             <-> In b (bookings d)
                 /\ Booking.event_id b = Event.id event
                 /\ Booking.status b = "confirmed").
  { intros b. rewrite filter_In, andb_true_iff, Z.eqb_eq, String.eqb_eq.
    reflexivity. }
  change (Z.of_nat
            (List.length
               (filter (fun b => (Booking.event_id b =? Event.id event)
                                 && String.eqb (Booking.status b) "confirmed")
                       (bookings d))))
    with (seats_taken d (Event.id event)).
  unfold seats_available, venue_capacity.
  destruct (positive_cases (Event.capacity event)) as [(n & Hn & ->)|[Hn ->]].
  - split; [split|split; [|split; [|split; [|split]]]];
      [| | | | |reflexivity|exact Hcount].
    + discriminate.
    + intros [He _]. now elim (He n).
    + intros c [Hc _]. destruct Hn as [Hn' _]. congruence.
    + intros c He. now elim (He n).
    + intros r Hr. inversion Hr. lia.
  - destruct (get_hall d (Event.hall_id event)) as [hall|].
    + destruct (positive_cases (Hall.capacity hall)) as [(m & Hm & ->)|[Hm ->]].
      * split; [split|split; [|split; [|split; [|split]]]];
          [| | | | |reflexivity|exact Hcount].
        -- discriminate.
        -- intros [_ Hh]. now elim (Hh m).
        -- intros c Hc. now elim (Hn c).
        -- intros c _ [Hc _]. destruct Hm as [Hm' _]. congruence.
        -- intros r Hr. inversion Hr. lia.
      * split; [split|split; [|split; [|split; [|split]]]];
          [| | | | |reflexivity|exact Hcount].
        -- now split.
        -- reflexivity.
        -- intros c Hc. now elim (Hn c).
        -- intros c _ Hc. now elim (Hm c).
        -- discriminate.
    + split; [split|split; [|split; [|split; [|split]]]];
        [| | | | |reflexivity|exact Hcount].
      * intros _. split; [assumption|]. intros n [Hc _]. discriminate.
      * reflexivity.
      * intros c Hc. now elim (Hn c).
      * intros c _ [Hc _]. discriminate.
      * discriminate.
Qed.

(** [n] confirmed bookings on event [event_id], keys [1..n]. *)
Definition confirmed_bookings (event_id : Z) (n : nat) : list Booking.t :=
  map (fun i => Booking.mk (Z.of_nat i) "ticket" (100 + Z.of_nat i) event_id
                           "confirmed" true true None None)
      (seq 1 n).

(** A hall of 100 seats, an event without a capacity of its own and 100
    confirmed bookings: no seat is left; with 120 the result is still 0. *)
Example seats_available_full_house :
  let hall := Hall.mk 1 "V" (Some 100) "free" None in
  let e1 := Event.mk 1 "E1" None None 1 2 (Some 0) 1000 1200 None None
                     "approved" true 0 in
  seats_available (mkDB [] [hall] [e1] (confirmed_bookings 1 100)) e1 = Some 0
  /\ seats_available (mkDB [] [hall] [e1] (confirmed_bookings 1 120)) e1
     = Some 0
  /\ seats_available (mkDB [] [hall] [e1] (confirmed_bookings 1 40)) e1
     = Some 60
  /\ seats_available (mkDB [] [] [e1] (confirmed_bookings 1 40)) e1 = None.
Proof. vm_compute. repeat split. Qed.

(** ** Schedule conflicts *)

Lemma conflicts_In (d : DB) (hall_id st et : Z) (exclude : option Z) e :
  In e (conflicts d hall_id st et exclude)
  <-> In e (events d)
      /\ Event.status e = "approved"
      /\ Event.hall_id e = hall_id
      /\ Event.start_time e < et
      /\ Event.end_time e > st
      /\ (forall x, exclude = Some x -> Event.id e <> x).
Proof.
  unfold conflicts. rewrite filter_In, !andb_true_iff.
  rewrite Z.eqb_eq, String.eqb_eq, Z.ltb_lt, Z.gtb_gt.
  assert (Hx : match exclude with
               | Some x => negb (Event.id e =? x)
               | None => true
               end = true
               <-> forall x, exclude = Some x -> Event.id e <> x).
  { destruct exclude as [x|].
    - rewrite negb_true_iff, Z.eqb_neq. split.
      + intros Hne y Hy. now inversion Hy; subst.
      + intros H. now apply H.
    - split; [discriminate|reflexivity]. }
  rewrite Hx. tauto.
Qed.

(** C5: the conflict check answers true if and only if some event has status
    [approved], is in the same hall, starts before the requested end and ends
    after the requested start, and is not the excluded event when one is
    given; an event that ends exactly at the requested start, or starts
    exactly at the requested end, is never among the conflicts. *)
Theorem has_conflict_iff (d : DB) (hall_id st et : Z) (exclude : option Z) :
  (has_conflict d hall_id st et exclude = true
   <-> exists e, In e (events d)
                 /\ Event.status e = "approved"
                 /\ Event.hall_id e = hall_id
                 /\ Event.start_time e < et
                 /\ Event.end_time e > st
                 /\ (forall x, exclude = Some x -> Event.id e <> x))
  /\ (forall e, In e (events d) ->
        Event.end_time e = st \/ Event.start_time e = et ->
        ~ In e (conflicts d hall_id st et exclude)).
Proof.
  split.
  - unfold has_conflict.
    destruct (conflicts d hall_id st et exclude) as [|e l] eqn:Hc.
    + split; [discriminate|].
      intros (e & He). apply conflicts_In in He. rewrite Hc in He. destruct He.
    + split; [|reflexivity].
      intros _. exists e. apply conflicts_In. rewrite Hc. now left.
  - intros e _ Htouch Hin. apply conflicts_In in Hin.
    destruct Hin as (_ & _ & _ & Hs & He & _). lia.
Qed.

(** E1 holds hall 1 from 10:00 to 12:00 (minutes of the day).  A request for
    11:00 to 13:00 conflicts, one for 12:00 to 14:00 or 08:00 to 10:00 does
    not, and E1 does not conflict with itself when it is excluded. *)
Example has_conflict_scenario :
  let e1 := Event.mk 1 "E1" None None 1 2 (Some 0) 600 720 None None
                     "approved" true 0 in
  let d := mkDB [] [hall_a] [e1] [] in
  has_conflict d 1 660 780 None = true
  /\ has_conflict d 1 720 840 None = false
  /\ has_conflict d 1 480 600 None = false
  /\ has_conflict d 2 660 780 None = false
  /\ has_conflict d 1 600 720 None = true
  /\ has_conflict d 1 600 720 (Some 1) = false.
Proof. vm_compute. repeat split. Qed.

(** ** Event admission *)

Definition created_flash : string :=
  "Event created successfully! Students can now book.".

(** Closes the goal of a branch that leaves the world as it was and
    redirects without an event id. *)
Ltac unchanged_world :=
  left;
  repeat match goal with
         | |- context [if ?c then _ else _] => destruct c
         end;
  (split; [reflexivity | now eexists _, _]).

(** What a call of [create_event] can do: leave the world as it is and
    redirect without an event id, or pass every check and append one event. *)
Lemma create_event_cases rt w u form :
  (fst (create_event rt w u form) = w
   /\ exists endpoint msg,
        snd (create_event rt w u form) = Redirect endpoint None msg)
  \/ (exists title hall_id st et hall ev,
        str_in (User.role u) ["organizer"; "admin"] = true
        /\ EventForm.title form = Some title /\ title <> ""
        /\ EventForm.hall_id form = value hall_id
        /\ EventForm.start_time form = value st
        /\ EventForm.end_time form = value et
        /\ st < et
        /\ get_hall (db w) hall_id = Some hall
        /\ Hall.status hall <> "blocked"
        /\ has_conflict (db w) hall_id st et None = false
        /\ fits_integer (int_or_zero (EventForm.capacity form)) = true
        /\ fits_integer (int_or_zero (EventForm.club_id form)) = true
        /\ events (db (fst (create_event rt w u form))) = (events (db w) ++ [ev])%list
        /\ bookings (db (fst (create_event rt w u form))) = bookings (db w)
        /\ Event.status ev = "approved"
        /\ Event.requires_faculty_approval ev = true
        /\ Event.title ev = title
        /\ Event.hall_id ev = hall_id
        /\ Event.start_time ev = st
        /\ Event.end_time ev = et
        /\ Event.organizer_id ev = User.id u
        /\ Event.capacity ev = Some (int_or_zero (EventForm.capacity form))
        /\ snd (create_event rt w u form)
           = Redirect "event_detail" (Some (Event.id ev)) created_flash).
Proof.
  unfold create_event, role_required.
  destruct (str_in (User.role u) ["organizer"; "admin"]) eqn:Hrole; cbn [negb];
    [|unchanged_world].
  destruct (EventForm.title form) as [title|] eqn:Ht; [|unchanged_world].
  destruct (EventForm.hall_id form) as [| |hall_id] eqn:Hh;
    destruct (EventForm.start_time form) as [| |st] eqn:Hs;
    destruct (EventForm.end_time form) as [| |et] eqn:He;
    try unchanged_world.
  destruct (String.eqb_spec title "") as [|Hne]; [unchanged_world|].
  destruct (Z.geb_spec st et) as [|Hlt]; [unchanged_world|].
  destruct (get_hall (db w) hall_id) as [hall|] eqn:Hhall; [|unchanged_world].
  destruct (String.eqb_spec (Hall.status hall) "blocked") as [|Hfree];
    [unchanged_world|].
  destruct (has_conflict (db w) hall_id st et None) eqn:Hc; [unchanged_world|].
  destruct (fits_integer (int_or_zero (EventForm.capacity form))) eqn:Hcap;
    cbn [andb negb]; [|unchanged_world].
  destruct (fits_integer (int_or_zero (EventForm.club_id form))) eqn:Hclub;
    cbn [andb negb]; [|unchanged_world].
  right. eexists title, hall_id, st, et, hall, _.
  cbn [fst snd db events bookings add_event Event.status
       Event.requires_faculty_approval Event.title Event.hall_id
       Event.start_time Event.end_time Event.organizer_id Event.id
       Event.capacity].
  repeat split; try reflexivity; try assumption.
Qed.


Lemma fits_integer_iff n :
  fits_integer n = true <-> - 2 ^ 63 <= n < 2 ^ 63.
Proof.
  unfold fits_integer. rewrite andb_true_iff, Z.leb_le, Z.ltb_lt. tauto.
Qed.

(** A well-formed request for the free hall [hall_a] after the seed event. *)
Definition new_event_form : EventForm.t :=
  EventForm.mk (Some "Hack Night") (Some "All night") None (value 1)
               (value 50) (value 1200) (value 1500) None None None absent.

Definition seed_world : World :=
  mkWorld (mkDB seed_users seed_halls seed_events []) [].





(** The same request is turned down for the blocked hall, for an interval
    that overlaps the seed event, and when it ends where it starts; a request
    that starts where the seed event ends is stored. *)
Example create_event_scenarios :
  let at_hall h f :=
    EventForm.mk (EventForm.title f) None None h (value 50)
                 (EventForm.start_time f) (EventForm.end_time f)
                 None None None absent in
  let during s e f :=
    EventForm.mk (EventForm.title f) None None (EventForm.hall_id f)
                 (value 50) (value s) (value e) None None None absent in
  create_event rt_full seed_world organizer (at_hall (value 3) new_event_form)
  = (seed_world, Redirect "create_event" None "Hall is currently blocked")
  /\ create_event rt_full seed_world organizer (during 1100 1300 new_event_form)
     = (seed_world,
        Redirect "create_event" None "Time conflict with another approved event")
  /\ create_event rt_full seed_world organizer (during 1300 1300 new_event_form)
     = (seed_world, Redirect "create_event" None "Start must be before end")
  /\ snd (create_event rt_full seed_world organizer new_event_form)
     = Redirect "event_detail" (Some 4) created_flash
  /\ create_event rt_full seed_world student new_event_form
     = (seed_world,
        Redirect "index" None "Access denied: insufficient permissions").
Proof. vm_compute. repeat split. Qed.

(** C10: every event [create_event] stores has [requires_faculty_approval]
    true, and the form's [requires_faculty] field has no influence on what the
    call does. *)
Theorem create_event_requires_faculty rt w u form :
  (forall e, In e (events (db (fst (create_event rt w u form)))) ->
             In e (events (db w))
             \/ Event.requires_faculty_approval e = true)
  /\ (forall v, create_event rt w u (EventForm.set_requires_faculty form v)
                = create_event rt w u form).
Proof.
  split.
  - intros e Hin.
    destruct (create_event_cases rt w u form)
      as [[Hsame _]|(title & hid & st & et & hall & ev & Hcase)].
    + rewrite Hsame in Hin. now left.
    + destruct Hcase as (_ & _ & _ & _ & _ & _ & _ & _ & _ & _ & _ & _ & Hev
                         & _ & _ & Hreq & _).
      rewrite Hev in Hin. apply in_app_or in Hin.
      destruct Hin as [Hin|[<-|[]]]; [now left|now right].
  - intros v. destruct form. reflexivity.
Qed.

(** A form that asks for no faculty approval still yields an event that
    requires it. *)
Example create_event_ignores_requires_faculty :
  let form := EventForm.set_requires_faculty new_event_form None in
  map Event.requires_faculty_approval
      (events (db (fst (create_event rt_full seed_world organizer form))))
  = [false; true; true; true].
Proof. reflexivity. Qed.

(** ** The bookings table *)

Lemma find_over_app {A : Type} (f : A -> bool) (l l' : list A) :
  find f (l ++ l')%list
  = match find f l with
    | Some x => Some x
    | None => find f l'
    end.
Proof.
  induction l as [|a l IH]; cbn [find app]; [reflexivity|].
  now destruct (f a).
Qed.

Lemma next_id_fresh (ids : list Z) x : In x ids -> x < next_id ids.
Proof.
  unfold next_id. induction ids as [|a ids IH]; cbn [In fold_right].
  - intros [].
  - intros [->|Hin]; [lia|]. specialize (IH Hin). lia.
Qed.

Lemma get_booking_id d i b : get_booking d i = Some b -> Booking.id b = i.
Proof.
  unfold get_booking. intros H. apply find_some in H.
  now apply Z.eqb_eq.
Qed.

(** Writing a row over its own key makes it the row found under that key. *)
Lemma get_put_booking d i b b' :
  get_booking d i = Some b ->
  Booking.id b' = Booking.id b ->
  get_booking (put_booking d b') i = Some b'.
Proof.
  intros Hget Hid. pose proof (get_booking_id _ _ _ Hget) as Hi.
  assert (Hb' : Booking.id b' = i) by congruence.
  revert Hget. unfold get_booking, put_booking. cbn [bookings]. rewrite Hb'.
  induction (bookings d) as [|a l IH]; cbn [find map]; [discriminate|].
  destruct (Z.eqb_spec (Booking.id a) i) as [Ha|Ha]; cbn [find].
  - intros _. now rewrite Hb', Z.eqb_refl.
  - intros Hget. rewrite (proj2 (Z.eqb_neq _ _) Ha). now apply IH.
Qed.

(** Committing the row that was just added under a fresh key changes no
    other row. *)
Lemma put_added_booking d b :
  Booking.id b = next_id (map Booking.id (bookings d)) ->
  bookings (put_booking (add_booking d b) b) = (bookings d ++ [b])%list.
Proof.
  intros Hid. unfold put_booking, add_booking. cbn [bookings].
  rewrite map_app. cbn [map]. rewrite Z.eqb_refl. f_equal.
  rewrite <- (map_id (bookings d)) at 2. apply map_ext_in.
  intros a Ha. destruct (Z.eqb_spec (Booking.id a) (Booking.id b)) as [He|];
    [|reflexivity].
  assert (Hlt : Booking.id a < next_id (map Booking.id (bookings d))).
  { apply next_id_fresh. now apply in_map. }
  lia.
Qed.

Lemma str_in_cons x a l :
  str_in x (a :: l) = true <-> x = a \/ str_in x l = true.
Proof.
  unfold str_in. cbn [existsb]. rewrite orb_true_iff, String.eqb_eq.
  reflexivity.
Qed.

Lemma str_in_management role :
  str_in role ["organizer"; "admin"] = true
  <-> role = "organizer" \/ role = "admin".
Proof.
  rewrite !str_in_cons. unfold str_in. cbn [existsb].
  intuition discriminate.
Qed.

Lemma str_in_bookers role :
  str_in role ["student"; "faculty"; "organizer"; "admin"] = true
  <-> role = "student" \/ role = "faculty" \/ role = "organizer"
      \/ role = "admin".
Proof.
  rewrite !str_in_cons. unfold str_in. cbn [existsb].
  intuition discriminate.
Qed.

(** The row [book_event] inserts for [current_user] on [ev]. *)
Definition new_booking (w : World) (current_user : User.t) (ev : Event.t)
    (fresh_ticket : string) : Booking.t :=
  Booking.mk (next_id (map Booking.id (bookings (db w)))) fresh_ticket
             (User.id current_user) (Event.id ev) "pending" false
             (negb (Event.requires_faculty_approval ev)
              && str_in (User.role current_user) ["organizer"; "admin"])
             None None.

(** The branches of [book_event]: the three refusals, the answer for a
    booking that is already there, and the creation of [new_booking]. *)
Lemma book_event_cases rt w u event_id tk ev :
  get_event (db w) event_id = Some ev ->
  let out := book_event rt w u event_id tk in
  (str_in (User.role u) ["student"; "faculty"; "organizer"; "admin"] = false
   /\ out = (w, Json (Error "role not allowed to book") 403))
  \/ (str_in (User.role u) ["student"; "faculty"; "organizer"; "admin"] = true
      /\ Event.status ev <> "approved" /\ User.role u <> "admin"
      /\ out = (w, Json (Error "event not open for booking") 400))
  \/ (str_in (User.role u) ["student"; "faculty"; "organizer"; "admin"] = true
      /\ (Event.status ev = "approved" \/ User.role u = "admin")
      /\ (exists a, seats_available (db w) ev = Some a /\ a <= 0)
      /\ out = (w, Json (Error "sold_out") 409))
  \/ (str_in (User.role u) ["student"; "faculty"; "organizer"; "admin"] = true
      /\ (Event.status ev = "approved" \/ User.role u = "admin")
      /\ (seats_available (db w) ev = None
          \/ exists a, seats_available (db w) ev = Some a /\ 0 < a)
      /\ exists b, existing_booking (db w) (User.id u) (Event.id ev) = Some b
                   /\ out = (w, Json (AlreadyBooked (Booking.id b)) 200))
  \/ (str_in (User.role u) ["student"; "faculty"; "organizer"; "admin"] = true
      /\ (Event.status ev = "approved" \/ User.role u = "admin")
      /\ (seats_available (db w) ev = None
          \/ exists a, seats_available (db w) ev = Some a /\ 0 < a)
      /\ existing_booking (db w) (User.id u) (Event.id ev) = None
      /\ bookings (db (fst out))
         = (bookings (db w) ++ [new_booking w u ev tk])%list
      /\ snd out = Json (Booked (Booking.id (new_booking w u ev tk)) tk None)
                        201).
Proof.
  intros Hev. cbv zeta. unfold book_event. rewrite Hev.
  destruct (str_in (User.role u) ["student"; "faculty"; "organizer"; "admin"])
    eqn:Hrole; cbn [negb]; [|now left].
  right.
  assert (Hgate : negb (String.eqb (Event.status ev) "approved")
                  && negb (String.eqb (User.role u) "admin") = false
                  -> Event.status ev = "approved" \/ User.role u = "admin").
  { destruct (String.eqb_spec (Event.status ev) "approved");
      destruct (String.eqb_spec (User.role u) "admin"); cbn; intros;
      try discriminate; tauto. }
  destruct (negb (String.eqb (Event.status ev) "approved")
            && negb (String.eqb (User.role u) "admin")) eqn:Hclosed.
  { left. apply andb_true_iff in Hclosed. destruct Hclosed as [Hs Ha].
    apply negb_true_iff, String.eqb_neq in Hs, Ha. now repeat split. }
  right. specialize (Hgate eq_refl).
  assert (Hseats : match seats_available (db w) ev with
                   | Some a => a <=? 0
                   | None => false
                   end = false
                   -> seats_available (db w) ev = None
                      \/ exists a, seats_available (db w) ev = Some a
                                   /\ 0 < a).
  { destruct (seats_available (db w) ev) as [a|]; [|now left].
    intros Ha. apply Z.leb_gt in Ha. right. now exists a. }
  destruct (match seats_available (db w) ev with
            | Some a => a <=? 0
            | None => false
            end) eqn:Hsold.
  { left. destruct (seats_available (db w) ev) as [a|]; [|discriminate].
    apply Z.leb_le in Hsold. repeat split; try assumption. now exists a. }
  right. specialize (Hseats eq_refl).
  destruct (existing_booking (db w) (User.id u) (Event.id ev)) as [b|] eqn:Hex.
  { left. repeat split; try assumption. now exists b. }
  right.
  assert (Hnew : (if negb (Event.requires_faculty_approval ev)
                     && str_in (User.role u) ["organizer"; "admin"]
                  then Booking.set_organizer_approved
                         (Booking.mk
                            (next_id (map Booking.id (bookings (db w))))
                            tk (User.id u) (Event.id ev) "pending" false
                            false None None) true
                  else Booking.mk
                         (next_id (map Booking.id (bookings (db w))))
                         tk (User.id u) (Event.id ev) "pending" false
                         false None None)
                 = new_booking w u ev tk).
  { unfold new_booking.
    destruct (negb (Event.requires_faculty_approval ev)
              && str_in (User.role u) ["organizer"; "admin"]); reflexivity. }
  rewrite Hnew.
  rewrite finalize_without_faculty_flag by reflexivity.
  cbn [fst snd db].
  rewrite put_added_booking by reflexivity.
  repeat split; try assumption.
Qed.

(** ** Booking creation *)

(** C9: the row [book_event] creates has [organizer_approved] true when the
    creator's role is [organizer] or [admin] and the event does not require
    faculty approval, and false otherwise; [faculty_approved] is false in
    either case.  The row is the one appended to the bookings and named in
    the 201 response. *)
Theorem book_event_initial_flags rt w u event_id tk w' booking_id t q :
  book_event rt w u event_id tk = (w', Json (Booked booking_id t q) 201) ->
  exists ev b,
    get_event (db w) event_id = Some ev
    /\ bookings (db w') = (bookings (db w) ++ [b])%list
    /\ Booking.id b = booking_id
    /\ Booking.user_id b = User.id u
    /\ Booking.event_id b = Event.id ev
    /\ Booking.faculty_approved b = false
    /\ (Event.requires_faculty_approval ev = false
        /\ (User.role u = "organizer" \/ User.role u = "admin") ->
        Booking.organizer_approved b = true)
    /\ (~ (Event.requires_faculty_approval ev = false
           /\ (User.role u = "organizer" \/ User.role u = "admin")) ->
        Booking.organizer_approved b = false).
Proof.
  intros Hout.
  destruct (get_event (db w) event_id) as [ev|] eqn:Hev.
  2:{ unfold book_event, not_found in Hout. rewrite Hev in Hout.
      destruct (fits_integer event_id); discriminate. }
  pose proof (book_event_cases rt w u event_id tk ev Hev) as Hcases.
  cbv zeta in Hcases. rewrite Hout in Hcases.
  destruct Hcases
    as [[_ H]|[(_ & _ & _ & H)|[(_ & _ & _ & H)|[(_ & _ & _ & b & _ & H)|H]]]];
    try discriminate.
  destruct H as (_ & _ & _ & _ & Hrows & Hresp).
  cbn [fst snd] in Hrows, Hresp. inversion Hresp; subst.
  exists ev, (new_booking w u ev tk).
  repeat split; try assumption; cbn [new_booking Booking.organizer_approved].
  - intros [-> Hrole]. apply str_in_management in Hrole. now rewrite Hrole.
  - intros Hnot.
    destruct (Event.requires_faculty_approval ev); [reflexivity|].
    destruct (str_in (User.role u) ["organizer"; "admin"]) eqn:Hrole;
      [|reflexivity].
    apply str_in_management in Hrole. exfalso. apply Hnot. now split.
Qed.

Lemma book_event_initial_flags_witness :
  exists ev b,
    get_event (db seed_world) 1 = Some ev
    /\ bookings (db (fst (book_event rt_full seed_world organizer 1 "ticket-0001")))
       = (bookings (db seed_world) ++ [b])%list
    /\ Booking.id b = 1
    /\ Booking.user_id b = User.id organizer
    /\ Booking.event_id b = Event.id ev
    /\ Booking.faculty_approved b = false
    /\ (Event.requires_faculty_approval ev = false
        /\ (User.role organizer = "organizer" \/ User.role organizer = "admin") ->
        Booking.organizer_approved b = true)
    /\ (~ (Event.requires_faculty_approval ev = false
           /\ (User.role organizer = "organizer"
               \/ User.role organizer = "admin")) ->
        Booking.organizer_approved b = false).
Proof.
  apply (book_event_initial_flags rt_full seed_world organizer 1 "ticket-0001"
           (fst (book_event rt_full seed_world organizer 1 "ticket-0001"))
           1 "ticket-0001" None).
  vm_compute. reflexivity.
Defined.

(** Who books what on the seed data: the organizer's booking on the
    faculty-skip event is approved by the organizer at creation, a student's
    is not, and nobody's is on an event that requires faculty approval. *)
Example book_event_flags_scenarios :
  let flags u e :=
    map (fun b => (Booking.faculty_approved b, Booking.organizer_approved b,
                   Booking.status b))
        (bookings (db (fst (book_event rt_full seed_world u e "ticket")))) in
  flags organizer 1 = [(false, true, "pending")]
  /\ flags admin 1 = [(false, true, "pending")]
  /\ flags student 1 = [(false, false, "pending")]
  /\ flags faculty 1 = [(false, false, "pending")]
  /\ flags organizer 2 = [(false, false, "pending")]
  /\ flags admin 3 = [(false, false, "pending")].
Proof. vm_compute. repeat split. Qed.

(** The one-seat hall is full: the student holds the confirmed booking on
    [recital], and an admin holds the confirmed booking that takes the only
    seat of the pending [cultural_evening]. *)
Definition student_seat : Booking.t :=
  Booking.mk 1 "ticket-0001" 3 2 "confirmed" true true None None.

Definition admin_seat : Booking.t :=
  Booking.mk 2 "ticket-0002" 1 3 "confirmed" true true None None.

Definition full_world : World :=
  mkWorld (mkDB seed_users seed_halls seed_events [student_seat; admin_seat])
          [].

(** C4 (counterexample): the pending event [cultural_evening] has
    [seats_available] 0, yet the student's request is refused as not open
    for booking (400), not as sold out. *)
Lemma sold_out_event_refused_as_not_open :
  get_event (db full_world) 3 = Some cultural_evening
  /\ seats_available (db full_world) cultural_evening = Some 0
  /\ book_event rt_full full_world student 3 "ticket-0003"
     = (full_world, Json (Error "event not open for booking") 400).
Proof. vm_compute. repeat split. Qed.

(** C4 (amended): a request against an event whose [seats_available] is 0
    changes nothing and is refused; the refusal is the sold-out conflict
    (409) whenever the requester's role may book and the event is approved or
    the requester is an admin; otherwise it is the refusal the handler checks
    first, the role refusal (403) when the role may not book and else the
    not-open refusal (400). *)
Theorem book_event_sold_out rt w u event_id tk ev :
  get_event (db w) event_id = Some ev ->
  seats_available (db w) ev = Some 0 ->
  fst (book_event rt w u event_id tk) = w
  /\ (snd (book_event rt w u event_id tk)
      = Json (Error "role not allowed to book") 403
      \/ snd (book_event rt w u event_id tk)
         = Json (Error "event not open for booking") 400
      \/ snd (book_event rt w u event_id tk) = Json (Error "sold_out") 409)
  /\ ((User.role u = "student" \/ User.role u = "faculty"
       \/ User.role u = "organizer" \/ User.role u = "admin") ->
      (Event.status ev = "approved" \/ User.role u = "admin") ->
      snd (book_event rt w u event_id tk) = Json (Error "sold_out") 409)
  /\ (~ (User.role u = "student" \/ User.role u = "faculty"
         \/ User.role u = "organizer" \/ User.role u = "admin") ->
      snd (book_event rt w u event_id tk)
      = Json (Error "role not allowed to book") 403)
  /\ ((User.role u = "student" \/ User.role u = "faculty"
       \/ User.role u = "organizer" \/ User.role u = "admin") ->
      Event.status ev <> "approved" -> User.role u <> "admin" ->
      snd (book_event rt w u event_id tk)
      = Json (Error "event not open for booking") 400).
Proof.
  intros Hev Hzero.
  pose proof (book_event_cases rt w u event_id tk ev Hev) as Hcases.
  cbv zeta in Hcases. rewrite Hzero in Hcases.
  assert (Hno : ~ (@Some Z 0 = None \/ exists a, Some 0 = Some a /\ 0 < a)).
  { intros [H|(a & H & Ha)]; [discriminate|]. inversion H. lia. }
  destruct Hcases
    as [[Hrole ->]|[(Hrole & Hst & Hadm & ->)|[(Hrole & Hgate & _ & ->)
       |[(_ & _ & H & _)|(_ & _ & H & _)]]]];
    try contradiction; cbn [fst snd].
  - split; [reflexivity|]. split; [now left|].
    split; [|split; [reflexivity|]].
    + intros Hr _. apply str_in_bookers in Hr. congruence.
    + intros Hr _ _. apply str_in_bookers in Hr. congruence.
  - apply str_in_bookers in Hrole.
    split; [reflexivity|]. split; [right; now left|].
    split; [|split; [|reflexivity]].
    + intros _ [Ho|Ha]; contradiction.
    + intros Hr. contradiction.
  - apply str_in_bookers in Hrole.
    split; [reflexivity|]. split; [right; now right|].
    split; [reflexivity|]. split.
    + intros Hr. contradiction.
    + intros _ Hs Ha. destruct Hgate; contradiction.
Qed.

Lemma book_event_sold_out_witness :
  fst (book_event rt_full full_world faculty 2 "ticket-0003") = full_world
  /\ snd (book_event rt_full full_world faculty 2 "ticket-0003")
     = Json (Error "sold_out") 409.
Proof.
  pose proof (book_event_sold_out rt_full full_world faculty 2 "ticket-0003"
                recital eq_refl eq_refl) as H.
  split; [exact (proj1 H)|].
  apply (proj1 (proj2 (proj2 H))).
  - right; left; reflexivity.
  - left; reflexivity.
Defined.

(** C6 (counterexample): the student already holds the (confirmed) booking on
    [recital], whose only seat it takes; booking again is refused as sold out
    (409) instead of being answered with the booking that exists. *)
Lemma rebooking_full_event_is_refused :
  existing_booking (db full_world) (User.id student) (Event.id recital)
  = Some student_seat
  /\ Booking.status student_seat <> "cancelled"
  /\ book_event rt_full full_world student 2 "ticket-0003"
     = (full_world, Json (Error "sold_out") 409).
Proof. vm_compute. repeat split. discriminate. Qed.

Lemma existing_booking_found d user_id event_id b0 :
  In b0 (bookings d) ->
  Booking.user_id b0 = user_id ->
  Booking.event_id b0 = event_id ->
  Booking.status b0 <> "cancelled" ->
  exists b, existing_booking d user_id event_id = Some b.
Proof.
  intros Hin Hu He Hs. unfold existing_booking.
  destruct (find _ (bookings d)) as [b|] eqn:Hfind; [now exists b|].
  exfalso. apply (find_none _ _ Hfind) in Hin.
  apply String.eqb_neq in Hs. rewrite Hu, He, Hs, !Z.eqb_refl in Hin.
  discriminate.
Qed.

Lemma existing_booking_sound d user_id event_id b :
  existing_booking d user_id event_id = Some b ->
  In b (bookings d)
  /\ Booking.user_id b = user_id
  /\ Booking.event_id b = event_id
  /\ Booking.status b <> "cancelled".
Proof.
  unfold existing_booking. intros H. apply find_some in H.
  destruct H as [Hin H]. apply andb_true_iff in H. destruct H as [H Hs].
  apply andb_true_iff in H. destruct H as [Hu He].
  apply Z.eqb_eq in Hu, He. apply negb_true_iff, String.eqb_neq in Hs.
  now repeat split.
Qed.

(** C6 (amended): when a non-cancelled booking of the requester for the event
    exists, [book_event] creates no row and changes nothing; and when the
    request also passes the checks made before the lookup (the role may book,
    the event is approved or the requester is an admin, and the event is not
    sold out) the answer is 200 [already_booked] with the id of such a
    booking. *)
Theorem book_event_existing rt w u event_id tk ev b0 :
  get_event (db w) event_id = Some ev ->
  In b0 (bookings (db w)) ->
  Booking.user_id b0 = User.id u ->
  Booking.event_id b0 = Event.id ev ->
  Booking.status b0 <> "cancelled" ->
  fst (book_event rt w u event_id tk) = w
  /\ ((User.role u = "student" \/ User.role u = "faculty"
       \/ User.role u = "organizer" \/ User.role u = "admin") ->
      (Event.status ev = "approved" \/ User.role u = "admin") ->
      (seats_available (db w) ev = None
       \/ exists a, seats_available (db w) ev = Some a /\ 0 < a) ->
      exists b,
        In b (bookings (db w))
        /\ Booking.user_id b = User.id u
        /\ Booking.event_id b = Event.id ev
        /\ Booking.status b <> "cancelled"
        /\ snd (book_event rt w u event_id tk)
           = Json (AlreadyBooked (Booking.id b)) 200).
Proof.
  intros Hev Hin Hu He Hs.
  destruct (existing_booking_found _ _ _ _ Hin Hu He Hs) as [b Hb].
  pose proof (book_event_cases rt w u event_id tk ev Hev) as Hcases.
  cbv zeta in Hcases. rewrite Hb in Hcases.
  destruct Hcases
    as [[Hrole ->]|[(Hrole & Hst & Hadm & ->)|[(Hrole & Hgate & Hsold & ->)
       |[(_ & _ & _ & b' & Hb' & ->)|(_ & _ & _ & H & _)]]]];
    try discriminate; cbn [fst snd]; (split; [reflexivity|]).
  - intros Hr _ _. apply str_in_bookers in Hr. congruence.
  - intros _ [Ho|Ha] _; contradiction.
  - intros _ _ [Hn|(a & Ha & Hpos)]; destruct Hsold as (a' & Ha' & Hle).
    + congruence.
    + rewrite Ha in Ha'. inversion Ha'. lia.
  - intros _ _ _. inversion Hb'; subst b'. exists b.
    destruct (existing_booking_sound _ _ _ _ Hb) as (? & ? & ? & ?).
    now repeat split.
Qed.

(** The student holds a pending booking on [tech_talk]. *)
Definition pending_seat : Booking.t :=
  Booking.mk 1 "ticket-0001" 3 1 "pending" false false None None.

Definition booked_world : World :=
  mkWorld (mkDB seed_users seed_halls seed_events [pending_seat]) [].

Lemma book_event_existing_witness :
  fst (book_event rt_full booked_world student 1 "ticket-0002") = booked_world
  /\ exists b,
       In b (bookings (db booked_world))
       /\ Booking.user_id b = User.id student
       /\ Booking.event_id b = Event.id tech_talk
       /\ Booking.status b <> "cancelled"
       /\ snd (book_event rt_full booked_world student 1 "ticket-0002")
          = Json (AlreadyBooked (Booking.id b)) 200.
Proof.
  assert (Hin : In pending_seat (bookings (db booked_world)))
    by (left; reflexivity).
  assert (Hs : Booking.status pending_seat <> "cancelled") by discriminate.
  pose proof (book_event_existing rt_full booked_world student 1 "ticket-0002"
                tech_talk pending_seat eq_refl Hin eq_refl eq_refl Hs) as H.
  split; [exact (proj1 H)|].
  apply (proj2 H).
  - left; reflexivity.
  - left; reflexivity.
  - right. exists 150. split; [reflexivity|lia].
Defined.

(** Booking twice in a row: the second call returns the id the first call
    gave and leaves the one row in place. *)
Example book_event_twice :
  let first := book_event rt_full seed_world student 1 "ticket-0001" in
  let second := book_event rt_full (fst first) student 1 "ticket-0002" in
  snd first = Json (Booked 1 "ticket-0001" None) 201
  /\ snd second = Json (AlreadyBooked 1) 200
  /\ fst second = fst first
  /\ List.length (bookings (db (fst second))) = 1%nat.
Proof. vm_compute. repeat split. Qed.

(** ** The booking state machine *)





(** On the faculty-skip event the routes cannot confirm a booking: the
    organizer's approval leaves it pending, and the faculty route declines to
    set the flag the check waits for. *)
Example faculty_skip_booking_stays_pending :
  let w1 := fst (organizer_approve_booking rt_full booked_world organizer 1) in
  let out := faculty_approve_booking rt_full w1 faculty 1 in
  map (fun b => (Booking.faculty_approved b, Booking.organizer_approved b,
                 Booking.status b))
      (bookings (db w1))
  = [(false, true, "pending")]
  /\ out = (w1, Redirect "faculty_bookings" None
                  "This booking does not require faculty approval.").
Proof. vm_compute. repeat split. Qed.

(** With faculty approval required, the organizer's approval leaves the
    booking pending and the faculty's approval then confirms it, with both
    artifacts and one ticket mail. *)
Example two_step_approval :
  let b := Booking.mk 1 "ticket-0001" 3 2 "pending" false false None None in
  let w0 := mkWorld (mkDB seed_users seed_halls seed_events [b]) [] in
  let w1 := fst (organizer_approve_booking rt_full w0 organizer 1) in
  let w2 := fst (faculty_approve_booking rt_full w1 faculty 1) in
  map Booking.status (bookings (db w1)) = ["pending"]
  /\ map Booking.status (bookings (db w2)) = ["confirmed"]
  /\ map Booking.qr_path (bookings (db w2))
     = [Some "static/uploads/tickets/ticket_ticket-0001.png"]
  /\ map recipient (outbox w2) = ["student@example.com"]
  /\ fst (organizer_approve_booking rt_full w2 organizer 1) = w2.
Proof. vm_compute. repeat split. Qed.

Lemma seats_available_spec_witness :
  seats_available (db full_world) recital = Some 0.
Proof.
  apply (proj1 (proj2 (proj2 (seats_available_spec (db full_world) recital)))
           1).
  - intros n [H Hn]. inversion H. subst. lia.
  - split; [reflexivity|lia].
Defined.

Lemma has_conflict_iff_witness :
  has_conflict (db seed_world) 1 1100 1300 None = true.
Proof.
  apply (proj1 (has_conflict_iff (db seed_world) 1 1100 1300 None)).
  exists tech_talk. repeat split; try lia.
  - left; reflexivity.
  - discriminate.
Defined.

Lemma create_event_requires_faculty_witness :
  forallb Event.requires_faculty_approval
    (skipn 3 (events (db (fst (create_event rt_full seed_world organizer
                                 new_event_form)))))
  = true
  /\ create_event rt_full seed_world organizer
       (EventForm.set_requires_faculty new_event_form (Some "on"))
     = create_event rt_full seed_world organizer new_event_form.
Proof.
  split; [reflexivity|].
  apply (proj2 (create_event_requires_faculty rt_full seed_world organizer
                  new_event_form)).
Defined.

(** * Further handlers and helpers *)

(** ** Upload names *)

Definition ALLOWED : list string := ["png"; "jpg"; "jpeg"; "gif"; "pdf"].

(** What follows the last occurrence of [c] in [s], if [c] occurs:
    [s.rsplit(c, 1)[1]] under the test [c in s]. *)
Fixpoint after_last (c : ascii) (s : string) : option string :=
  match s with
  | EmptyString => None
  | String a r =>
      match after_last c r with
      | Some t => Some t
      | None => if Ascii.eqb a c then Some r else None
      end
  end.

(** [str.lower] on the letters A to Z.  No other character lowers to a
    letter of an allowed extension, so the membership test below is the
    source's. *)
Definition lower_char (a : ascii) : ascii :=
  let n := nat_of_ascii a in
  if (Nat.leb 65 n && Nat.leb n 90)%bool then ascii_of_nat (n + 32) else a.

Fixpoint lower (s : string) : string :=
  match s with
  | EmptyString => EmptyString
  | String a r => String (lower_char a) (lower r)
  end.

Definition allowed_file (filename : string) : bool :=
  match after_last "."%char filename with
  | Some ext => str_in (lower ext) ALLOWED
  | None => false
  end.

(** ** Halls *)

Definition hall_with_status (h : Hall.t) (s : string) : Hall.t :=
  Hall.mk (Hall.id h) (Hall.name h) (Hall.capacity h) s (Hall.location h).

Definition put_hall (d : DB) (h : Hall.t) : DB :=
  mkDB (users d)
       (map (fun x => if Hall.id x =? Hall.id h then h else x) (halls d))
       (events d) (bookings d).

(** [admin_block_hall(hall_id)]; [action] is the form's [action] field. *)
Definition admin_block_hall (w : World) (current_user : User.t)
    (hall_id : Z) (action : option string) : World * Response :=
  role_required ["admin"] current_user w
    (match get_hall (db w) hall_id with
     | None => (w, not_found hall_id)
     | Some h =>
         let status :=
           match action with
           | Some a => if String.eqb a "block" then "blocked" else "free"
           | None => "free"
           end in
         (mkWorld (put_hall (db w) (hall_with_status h status)) (outbox w),
          Redirect "admin_halls" None "Hall status updated")
     end).

(** ** Editing an event *)

(** The POST branch of [edit_event].  A capacity that is not an integer
    makes [int] raise; a missing title violates the column's
    [nullable=False] at commit, and a capacity SQLite cannot hold makes the
    commit raise.  Nothing catches these: the request ends in a server error
    and the session's changes are dropped. *)
Definition edit_event (w : World) (current_user : User.t) (event_id : Z)
    (form : EventForm.t) : World * Response :=
  role_required ["organizer"; "admin"] current_user w
    (match get_event (db w) event_id with
     | None => (w, not_found event_id)
     | Some ev =>
         if negb (User.id current_user =? Event.organizer_id ev)
            && negb (String.eqb (User.role current_user) "admin")
         then (w, Redirect "event_detail" (Some event_id) "Not allowed")
         else
           match EventForm.capacity form, EventForm.title form with
           | malformed, _ => (w, Abort 500)
           | _, None => (w, Abort 500)
           | capacity, Some title =>
               if negb (fits_integer (int_or_zero capacity))
               then (w, Abort 500) else
               let upload old u :=
                 match u with
                 | Some f => if allowed f then saved f else old
                 | None => old
                 end in
               let ev' :=
                 Event.mk (Event.id ev) title (EventForm.description form)
                          (if truthy_str (EventForm.category_id form)
                           then EventForm.category_id form else None)
                          (Event.hall_id ev) (Event.organizer_id ev)
                          (Some (int_or_zero capacity))
                          (Event.start_time ev) (Event.end_time ev)
                          (upload (Event.poster_path ev)
                                  (EventForm.poster form))
                          (upload (Event.invitation_path ev)
                                  (EventForm.invitation form))
                          (Event.status ev)
                          (truthy_str (EventForm.requires_faculty form))
                          (Event.club_id ev) in
               (mkWorld (put_event (db w) ev') (outbox w),
                Redirect "event_detail" (Some (Event.id ev)) "Event updated")
           end
     end).

(** ** Accounts *)

Definition add_user (d : DB) (u : User.t) : DB :=
  mkDB (users d ++ [u]) (halls d) (events d) (bookings d).

(** [User.query.filter_by(email=email).first()]. *)
Definition user_by_email (d : DB) (email : string) : option User.t :=
  find (fun u => match User.email u with
                 | Some e => String.eqb e email
                 | None => false
                 end)
       (users d).

Record RegisterForm := mkRegisterForm {
  reg_role : option string;
  reg_email : option string;
  reg_password : option string;
  reg_full_name : option string
}.

(** The POST branch of [register].  The password only reaches the
    [password_hash] column, which no modelled handler reads. *)
Definition register (w : World) (form : RegisterForm) : World * Response :=
  let role := match reg_role form with
              | Some r => r
              | None => "student"
              end in
  if negb (truthy_str (reg_email form))
     || negb (truthy_str (reg_password form))
  then (w, Redirect "register" None "Email and password required")
  else
    match reg_email form with
    | None => (w, Redirect "register" None "Email and password required")
    | Some email =>
        match user_by_email (db w) email with
        | Some _ => (w, Redirect "register" None "Email already registered")
        | None =>
            let user :=
              User.mk (next_id (map User.id (users (db w)))) (Some email)
                      (reg_full_name form) role true in
            (mkWorld (add_user (db w) user) (outbox w),
             Redirect "login" None "Registration successful. Please login.")
        end
    end.

(** The POST branch of [admin_users]: the same insertion behind the admin
    gate, with only the email required. *)
Definition admin_users (w : World) (current_user : User.t)
    (form : RegisterForm) : World * Response :=
  role_required ["admin"] current_user w
    (let role := match reg_role form with
                 | Some r => r
                 | None => "student"
                 end in
     if negb (truthy_str (reg_email form))
     then (w, Redirect "admin_users" None "Email required")
     else
       match reg_email form with
       | None => (w, Redirect "admin_users" None "Email required")
       | Some email =>
           match user_by_email (db w) email with
           | Some _ => (w, Redirect "admin_users" None "Email already exists")
           | None =>
               let user :=
                 User.mk (next_id (map User.id (users (db w)))) (Some email)
                         (reg_full_name form) role true in
               (mkWorld (add_user (db w) user) (outbox w),
                Redirect "admin_users" None "User created")
           end
       end).

(** ** Settings *)

Record Setting := mkSetting {
  setting_id : Z;
  setting_key : string;
  setting_value : option string
}.

(** [Setting.query.filter_by(key=key).first()]. *)
Definition setting_row (settings : list Setting) (key : string)
  : option Setting :=
  find (fun s => String.eqb (setting_key s) key) settings.

Definition get_setting (settings : list Setting) (key : string)
    (default : option string) : option string :=
  match setting_row settings key with
  | Some s => setting_value s
  | None => default
  end.

(** The row [first()] returned is the one whose value is assigned. *)
Fixpoint assign_first (settings : list Setting) (key : string)
    (value : option string) : list Setting :=
  match settings with
  | [] => []
  | s :: rest =>
      if String.eqb (setting_key s) key
      then mkSetting (setting_id s) (setting_key s) value :: rest
      else s :: assign_first rest key value
  end.

Definition set_setting (settings : list Setting) (key : string)
    (value : option string) : list Setting :=
  match setting_row settings key with
  | Some _ => assign_first settings key value
  | None =>
      (settings
       ++ [mkSetting (next_id (map setting_id settings)) key value])%list
  end.

(** ** Mail settings *)

Record MailForm := mkMailForm {
  mail_server : option string;
  mail_port : option string;
  mail_username : option string;
  mail_password : option string;
  mail_use_tls : option string;
  mail_use_ssl : option string;
  mail_default_sender : option string
}.

(** [load_email_settings()], for the part of the configuration the modelled
    senders read: the server name and the [mail] object.  [Mail_installed]
    says whether Flask-Mail was imported and [init_ok] whether [Mail(app)]
    returns; the [settings] table exists. *)
Definition load_email_settings (rt : Runtime) (settings : list Setting)
    (Mail_installed init_ok : bool) : Runtime :=
  let server :=
    match get_setting settings "MAIL_SERVER" (Some (MAIL_SERVER rt)) with
    | Some s => s
    | None => ""
    end in
  mkRuntime (qrcode rt) (qr_saved rt) (have_reportlab rt) (pdf_drawn rt)
            (if Mail_installed && negb (String.eqb server "")
             then init_ok else false)
            server (smtp_accepts rt) (path_exists rt).

Section EmailSettings.

(** [str.strip]; the handler's logic does not depend on which characters it
    removes. *)
Variable strip : string -> string.

Definition stripped (x : option string) : string :=
  strip (match x with
         | Some s => s
         | None => ""
         end).

Definition checkbox (x : option string) : string :=
  if truthy_str x then "1" else "0".

(** The settings the POST branch of [admin_email_settings] stores. *)
Definition store_email_settings (settings : list Setting) (form : MailForm)
  : list Setting :=
  let password := stripped (mail_password form) in
  let existing_pw := get_setting settings "MAIL_PASSWORD" (Some "") in
  let pw_to_store :=
    if String.eqb password "" then existing_pw else Some password in
  let s1 := set_setting settings "MAIL_SERVER"
              (Some (stripped (mail_server form))) in
  let s2 := set_setting s1 "MAIL_PORT" (Some (stripped (mail_port form))) in
  let s3 := set_setting s2 "MAIL_USERNAME"
              (Some (stripped (mail_username form))) in
  let s4 := set_setting s3 "MAIL_PASSWORD" pw_to_store in
  let s5 := set_setting s4 "MAIL_USE_TLS"
              (Some (checkbox (mail_use_tls form))) in
  let s6 := set_setting s5 "MAIL_USE_SSL"
              (Some (checkbox (mail_use_ssl form))) in
  set_setting s6 "MAIL_DEFAULT_SENDER"
    (Some (stripped (mail_default_sender form))).

(** The POST branch of [admin_email_settings]: the settings table and the
    runtime after the request. *)
Definition admin_email_settings (rt : Runtime) (settings : list Setting)
    (current_user : User.t) (form : MailForm)
    (Mail_installed init_ok : bool) : list Setting * Runtime * Response :=
  if negb (str_in (User.role current_user) ["admin"])
  then (settings, rt,
        Redirect "index" None "Access denied: insufficient permissions")
  else
    let settings' := store_email_settings settings form in
    (settings', load_email_settings rt settings' Mail_installed init_ok,
     Redirect "admin_email_settings" None "Email settings updated.").

End EmailSettings.

(** * Properties of the further code *)

(** ** Finalization *)

(** X1: running the finalization check a second time, on the booking the
    first run returned, changes nothing and sends nothing, whatever the first
    run did. *)
Theorem finalize_idempotent rt ev owner b :
  let b' := fst (finalize_booking_if_ready rt ev owner b) in
  finalize_booking_if_ready rt ev owner b' = (b', []).
Proof.
  cbv zeta.
  destruct (Booking.faculty_approved b && Booking.organizer_approved b
            && negb (String.eqb (Booking.status b) "confirmed")) eqn:Hguard.
  - apply finalize_not_ready, confirmed_not_ready.
    unfold finalize_booking_if_ready. rewrite Hguard. cbn [fst].
    destruct (generate_ticket_pdf _ _ _ _); destruct (qrcode rt); reflexivity.
  - rewrite (finalize_not_ready _ _ _ _ Hguard). cbn [fst].
    now apply finalize_not_ready.
Qed.

(** The check can fire again later: [cancel_booking] leaves both flags set,
    so the next approval of the cancelled booking passes the guard, confirms
    the booking and mails the ticket once more. *)
Example cancelled_booking_is_confirmed_again :
  let w1 := fst (cancel_booking full_world student 1) in
  let w2 := fst (organizer_approve_booking rt_full w1 organizer 1) in
  option_map Booking.status (get_booking (db w1) 1) = Some "cancelled"
  /\ option_map Booking.status (get_booking (db w2) 1) = Some "confirmed"
  /\ map recipient (outbox w2) = ["student@example.com"].
Proof. vm_compute. repeat split. Qed.

(** The status after the check, in terms of the booking before it. *)
Lemma finalize_status_iff rt ev owner b :
  Booking.status (fst (finalize_booking_if_ready rt ev owner b)) = "confirmed"
  <-> (Booking.faculty_approved b = true
       /\ Booking.organizer_approved b = true)
      \/ Booking.status b = "confirmed".
Proof.
  unfold finalize_booking_if_ready.
  destruct (Booking.faculty_approved b) eqn:Hf;
    destruct (Booking.organizer_approved b) eqn:Ho;
    destruct (String.eqb_spec (Booking.status b) "confirmed") as [Hs|Hs];
    cbn [andb negb fst];
    try (destruct (generate_ticket_pdf _ _ _ _); destruct (qrcode rt); cbn);
    intuition congruence.
Qed.

(** The columns the check never writes. *)
Lemma finalize_keeps_columns rt ev owner b :
  let b' := fst (finalize_booking_if_ready rt ev owner b) in
  Booking.ticket_id b' = Booking.ticket_id b
  /\ Booking.user_id b' = Booking.user_id b
  /\ Booking.event_id b' = Booking.event_id b
  /\ Booking.faculty_approved b' = Booking.faculty_approved b
  /\ Booking.organizer_approved b' = Booking.organizer_approved b.
Proof.
  cbv zeta. unfold finalize_booking_if_ready.
  destruct (Booking.faculty_approved b && Booking.organizer_approved b
            && negb (String.eqb (Booking.status b) "confirmed"));
    cbn [fst]; [|now repeat split].
  destruct (generate_ticket_pdf _ _ _ _); destruct (qrcode rt);
    now repeat split.
Qed.

(** X2: after the check the booking is confirmed exactly when both flags are
    set or it was confirmed before; the check never touches the key, the
    ticket token, the owner, the event or the two flags. *)
Theorem finalize_confirms_iff rt ev owner b :
  let b' := fst (finalize_booking_if_ready rt ev owner b) in
  (Booking.status b' = "confirmed"
   <-> (Booking.faculty_approved b = true
        /\ Booking.organizer_approved b = true)
       \/ Booking.status b = "confirmed")
  /\ Booking.id b' = Booking.id b
  /\ Booking.ticket_id b' = Booking.ticket_id b
  /\ Booking.user_id b' = Booking.user_id b
  /\ Booking.event_id b' = Booking.event_id b
  /\ Booking.faculty_approved b' = Booking.faculty_approved b
  /\ Booking.organizer_approved b' = Booking.organizer_approved b.
Proof.
  cbv zeta. split; [apply finalize_status_iff|].
  split; [apply finalize_keeps_id|].
  apply finalize_keeps_columns.
Qed.

(** A stored path is attached when it is set, not empty and names a file
    that is there. *)
Lemma attached_In rt path p :
  In p (attached rt path)
  <-> path = Some p /\ p <> "" /\ path_exists rt p = true.
Proof.
  unfold attached. destruct path as [q|]; cbn [truthy_str].
  - destruct (String.eqb_spec q "") as [Hq|Hq]; cbn [negb andb].
    + split; [intros []|]. intros (Hp & Hne & _). congruence.
    + destruct (path_exists rt q) eqn:Hex.
      * split.
        -- intros [<-|[]]. now repeat split.
        -- intros (Hp & _). inversion Hp. now left.
      * split; [intros []|]. intros (Hp & _ & He). congruence.
  - split; [intros []|]. intros (Hp & _). discriminate.
Qed.

(** X3: the check sends at most one message, and a message it sends goes to
    the owner's address, carries the event's title in its subject and
    attaches the stored artifacts whose file is there and nothing else: a
    path is attached exactly when it is the booking's [qr_path] or
    [pdf_path], is not empty and names an existing file; with no mail object
    or no server configured the check sends nothing. *)
Theorem finalize_mail rt ev owner b :
  let out := finalize_booking_if_ready rt ev owner b in
  (snd out = []
   \/ exists u addr e files,
        owner = Some u /\ User.email u = Some addr /\ ev = Some e
        /\ snd out = [mkMsg addr ("Ticket for " ++ Event.title e) files]
        /\ forall p,
             In p files
             <-> (Booking.qr_path (fst out) = Some p
                  \/ Booking.pdf_path (fst out) = Some p)
                 /\ p <> "" /\ path_exists rt p = true)
  /\ (mail rt = false \/ MAIL_SERVER rt = "" -> snd out = []).
Proof.
  cbv zeta. unfold finalize_booking_if_ready.
  destruct (Booking.faculty_approved b && Booking.organizer_approved b
            && negb (String.eqb (Booking.status b) "confirmed"));
    [|split; [now left|reflexivity]].
  cbn [fst snd].
  destruct owner as [u|]; [|split; [now left|reflexivity]].
  destruct (User.email u) as [addr|] eqn:Haddr;
    [|split; [now left|reflexivity]].
  unfold send_ticket_email.
  destruct (mail rt) eqn:Hmail; cbn [andb negb orb];
    [|split; [now left|reflexivity]].
  destruct (String.eqb_spec addr ""); [split; [now left|reflexivity]|].
  destruct (String.eqb_spec (MAIL_SERVER rt) "") as [Hsrv|Hsrv];
    [split; [now left|reflexivity]|].
  destruct ev as [e|]; [|split; [now left|reflexivity]].
  destruct (smtp_accepts rt addr); [|split; [now left|reflexivity]].
  split.
  - right. eexists u, addr, e, _.
    split; [reflexivity|]. split; [assumption|]. split; [reflexivity|].
    split; [reflexivity|].
    intros p. rewrite in_app_iff, !attached_In. tauto.
  - intros [H|H]; [discriminate|contradiction].
Qed.

(** A ticket whose PDF has gone from the disk is mailed with the QR image
    alone. *)
Example ticket_mail_without_pdf :
  let rt :=
    mkRuntime true (fun _ => true) true (fun _ _ _ => true) true
              "smtp.example.com" (fun _ => true)
              (fun p => String.eqb p "static/uploads/tickets/ticket_t1.png") in
  let b :=
    Booking.mk 1 "t1" 3 2 "confirmed" true true
               (Some "static/uploads/tickets/ticket_t1.png")
               (Some "static/uploads/tickets/ticket_t1.pdf") in
  map attachments (send_ticket_email rt "student@example.com" (Some recital) b)
  = [["static/uploads/tickets/ticket_t1.png"]].
Proof. reflexivity. Qed.

(** ** Mail *)

(** No mail object, or no server configured. *)
Definition mail_off (rt : Runtime) : Prop :=
  mail rt = false \/ MAIL_SERVER rt = "".

Lemma mail_off_guard rt :
  mail_off rt -> negb (mail rt) || String.eqb (MAIL_SERVER rt) "" = true.
Proof.
  intros [H|H]; rewrite H; [reflexivity|]. rewrite String.eqb_refl.
  apply orb_true_r.
Qed.

Lemma mail_off_notification rt subj recipients :
  mail_off rt -> send_notification_email rt subj recipients = [].
Proof.
  intros H. unfold send_notification_email. now rewrite mail_off_guard.
Qed.

Lemma mail_off_booking_notifications rt d u ev :
  mail_off rt -> booking_notifications rt d u ev = [].
Proof.
  intros H. unfold booking_notifications.
  rewrite !mail_off_notification by assumption.
  destruct (truthy_str (User.email u));
    destruct (_ ++ faculty_emails d)%list; reflexivity.
Qed.

Lemma mail_off_finalize rt ev owner b :
  mail_off rt -> snd (finalize_booking_if_ready rt ev owner b) = [].
Proof.
  intros Hoff. unfold finalize_booking_if_ready.
  destruct (Booking.faculty_approved b && Booking.organizer_approved b
            && negb (String.eqb (Booking.status b) "confirmed"));
    [|reflexivity].
  cbn [snd]. unfold send_ticket_email. rewrite mail_off_guard by assumption.
  destruct owner as [u|]; [|reflexivity].
  destruct (User.email u); [|reflexivity].
  now destruct (mail rt && negb (String.eqb s ""))%bool.
Qed.

(** X4: [send_notification_email] makes one delivery attempt per recipient
    it is given: every message it gets delivered goes to one of them, under
    the subject it was given and without attachments, there are never more
    messages than recipients, and an empty recipient list sends nothing. *)
Theorem send_notification_email_recipients rt subj recipients :
  (forall m, In m (send_notification_email rt subj recipients) ->
             In (recipient m) recipients
             /\ subject m = subj /\ attachments m = [])
  /\ (List.length (send_notification_email rt subj recipients)
      <= List.length recipients)%nat
  /\ send_notification_email rt subj [] = [].
Proof.
  unfold send_notification_email.
  destruct (negb (mail rt) || String.eqb (MAIL_SERVER rt) "").
  - split; [intros m []|split; [apply Nat.le_0_l|reflexivity]].
  - split; [|split; [|reflexivity]].
    + intros m H. apply in_map_iff in H. destruct H as (r & <- & Hr).
      apply filter_In in Hr. now repeat split.
    + rewrite length_map. apply filter_length_le.
Qed.

(** X5: with no mail object or no server configured, no handler sends
    anything: booking, event creation and both approvals leave the outbox as
    it was. *)
Theorem mail_off_handlers_send_nothing rt :
  mail_off rt ->
  (forall w u event_id tk,
     outbox (fst (book_event rt w u event_id tk)) = outbox w)
  /\ (forall w u form, outbox (fst (create_event rt w u form)) = outbox w)
  /\ (forall w u booking_id,
        outbox (fst (organizer_approve_booking rt w u booking_id)) = outbox w)
  /\ (forall w u booking_id,
        outbox (fst (faculty_approve_booking rt w u booking_id)) = outbox w).
Proof.
  intros Hoff.
  assert (Hfin : forall ev owner b,
             snd (finalize_booking_if_ready rt ev owner b) = []).
  { intros. now apply mail_off_finalize. }
  split; [|split; [|split]].
  - intros w u event_id tk. unfold book_event.
    repeat match goal with
           | |- context [match ?c with _ => _ end] =>
               lazymatch c with
               | finalize_booking_if_ready _ _ _ _ => fail
               | _ => destruct c
               end
           end; try reflexivity.
    all: match goal with
         | |- context [finalize_booking_if_ready ?r ?e ?o ?b] =>
             pose proof (Hfin e o b) as Hs;
             destruct (finalize_booking_if_ready r e o b) as [b' sent]
         end;
      cbn [snd] in Hs; subst sent; cbn [fst outbox];
      rewrite mail_off_booking_notifications by assumption;
      now rewrite !app_nil_r.
  - intros w u form. unfold create_event, role_required.
    repeat match goal with
           | |- context [match ?c with _ => _ end] => destruct c
           end; try reflexivity;
      cbn [fst outbox]; rewrite ?mail_off_notification by assumption;
      now rewrite app_nil_r.
  - intros w u booking_id. unfold organizer_approve_booking, role_required.
    repeat match goal with
           | |- context [match ?c with _ => _ end] =>
               lazymatch c with
               | finalize_booking_if_ready _ _ _ _ => fail
               | _ => destruct c
               end
           end; try reflexivity.
    all: match goal with
         | |- context [finalize_booking_if_ready ?r ?e ?o ?b] =>
             pose proof (Hfin e o b) as Hs;
             destruct (finalize_booking_if_ready r e o b) as [b' sent]
         end;
      cbn [snd] in Hs; subst sent; cbn [fst outbox]; now rewrite app_nil_r.
  - intros w u booking_id. unfold faculty_approve_booking, role_required.
    repeat match goal with
           | |- context [match ?c with _ => _ end] =>
               lazymatch c with
               | finalize_booking_if_ready _ _ _ _ => fail
               | _ => destruct c
               end
           end; try reflexivity.
    all: match goal with
         | |- context [finalize_booking_if_ready ?r ?e ?o ?b] =>
             pose proof (Hfin e o b) as Hs;
             destruct (finalize_booking_if_ready r e o b) as [b' sent]
         end;
      cbn [snd] in Hs; subst sent; cbn [fst outbox]; now rewrite app_nil_r.
Qed.

(** ** Bookings *)

Lemma get_put_booking_other d i b' :
  Booking.id b' <> i ->
  get_booking (put_booking d b') i = get_booking d i.
Proof.
  intros Hne. unfold get_booking, put_booking. cbn [bookings].
  induction (bookings d) as [|a l IH]; cbn [find map]; [reflexivity|].
  destruct (Z.eqb_spec (Booking.id a) (Booking.id b')) as [He|He].
  - rewrite (proj2 (Z.eqb_neq _ _) Hne).
    assert (Ha : Booking.id a <> i) by congruence.
    now rewrite (proj2 (Z.eqb_neq _ _) Ha).
  - destruct (Booking.id a =? i); [reflexivity|exact IH].
Qed.

Lemma put_booking_ids d b' :
  map Booking.id (bookings (put_booking d b')) = map Booking.id (bookings d).
Proof.
  unfold put_booking. cbn [bookings]. rewrite map_map. apply map_ext.
  intros a. destruct (Z.eqb_spec (Booking.id a) (Booking.id b')); congruence.
Qed.

Lemma seats_taken_app d1 d2 event_id b :
  bookings d2 = (bookings d1 ++ [b])%list ->
  Booking.status b <> "confirmed" ->
  seats_taken d2 event_id = seats_taken d1 event_id.
Proof.
  intros Hrows Hs. unfold seats_taken. rewrite Hrows, filter_app.
  cbn [filter]. unfold is_confirmed_for at 2.
  apply String.eqb_neq in Hs. rewrite Hs, andb_false_r.
  now rewrite app_nil_r.
Qed.

(** X6: [book_event] never takes a seat: whatever the request and its
    outcome, the count of confirmed bookings of every event is afterwards
    what it was, because a new row starts with [faculty_approved] false and
    the finalization check at the end of the handler cannot fire. *)
Theorem book_event_takes_no_seat rt w u event_id tk e :
  seats_taken (db (fst (book_event rt w u event_id tk))) e
  = seats_taken (db w) e.
Proof.
  destruct (get_event (db w) event_id) as [ev|] eqn:Hev.
  2:{ unfold book_event. now rewrite Hev. }
  pose proof (book_event_cases rt w u event_id tk ev Hev) as Hcases.
  cbv zeta in Hcases.
  destruct Hcases
    as [[_ ->]|[(_ & _ & _ & ->)|[(_ & _ & _ & ->)|[(_ & _ & _ & b & _ & ->)
       |(_ & _ & _ & _ & Hrows & _)]]]]; try reflexivity.
  apply (seats_taken_app _ _ _ _ Hrows). discriminate.
Qed.

(** X7: for a key that no booking has, [cancel_booking] answers 404 when
    the key fits a signed 64-bit integer and a server error (500) when it
    does not; it answers 403 for a user who is neither the booking's owner
    nor an admin; nothing changes in these cases.  Whatever it answers, it
    removes and adds no row, leaves every booking under another key as it
    was, and leaves users, halls, events and the outbox alone. *)
Theorem cancel_booking_scope w u booking_id :
  (get_booking (db w) booking_id = None ->
   - 2 ^ 63 <= booking_id < 2 ^ 63 ->
   cancel_booking w u booking_id = (w, Abort 404))
  /\ (get_booking (db w) booking_id = None ->
      ~ - 2 ^ 63 <= booking_id < 2 ^ 63 ->
      cancel_booking w u booking_id = (w, Abort 500))
  /\ (forall b, get_booking (db w) booking_id = Some b ->
                Booking.user_id b <> User.id u -> User.role u <> "admin" ->
                cancel_booking w u booking_id = (w, Abort 403))
  /\ map Booking.id (bookings (db (fst (cancel_booking w u booking_id))))
     = map Booking.id (bookings (db w))
  /\ (forall i, i <> booking_id ->
                get_booking (db (fst (cancel_booking w u booking_id))) i
                = get_booking (db w) i)
  /\ users (db (fst (cancel_booking w u booking_id))) = users (db w)
  /\ halls (db (fst (cancel_booking w u booking_id))) = halls (db w)
  /\ events (db (fst (cancel_booking w u booking_id))) = events (db w)
  /\ outbox (fst (cancel_booking w u booking_id)) = outbox w.
Proof.
  unfold cancel_booking, not_found.
  destruct (get_booking (db w) booking_id) as [b|] eqn:Hget.
  2:{ split; [|split].
      - intros _ Hfit. apply fits_integer_iff in Hfit. now rewrite Hfit.
      - intros _ Hfit. destruct (fits_integer booking_id) eqn:Hf;
          [|reflexivity].
        apply fits_integer_iff in Hf. contradiction.
      - repeat split; try reflexivity. intros b Hb; discriminate. }
  pose proof (get_booking_id _ _ _ Hget) as Hid.
  split; [discriminate|]. split; [discriminate|]. split.
  { intros b0 Hb0 Hu Hr. inversion Hb0; subst b0.
    apply Z.eqb_neq in Hu. rewrite Hu.
    assert (Ha : str_in (User.role u) ["admin"] = false).
    { unfold str_in. cbn [existsb]. apply String.eqb_neq in Hr.
      now rewrite Hr. }
    now rewrite Ha. }
  destruct (negb (Booking.user_id b =? User.id u)
            && negb (str_in (User.role u) ["admin"]));
    [repeat split; reflexivity|].
  cbn [fst db outbox]. repeat split.
  - apply put_booking_ids.
  - intros i Hi. apply get_put_booking_other. cbn. congruence.
Qed.

(** An unknown booking, under a key SQLite can hold and under one it
    cannot. *)
Example cancel_unknown_booking :
  cancel_booking full_world student 9 = (full_world, Abort 404)
  /\ cancel_booking full_world student (2 ^ 63) = (full_world, Abort 500).
Proof. vm_compute. split; reflexivity. Qed.

Lemma map_put_absent (l : list Booking.t) k b' :
  ~ In k (map Booking.id l) ->
  map (fun x => if Booking.id x =? k then b' else x) l = l.
Proof.
  intros Hnotin. rewrite <- (map_id l) at 2. apply map_ext_in. intros x Hx.
  destruct (Z.eqb_spec (Booking.id x) k) as [He|]; [|reflexivity].
  exfalso. apply Hnotin. rewrite <- He. now apply in_map.
Qed.

(** The number of rows that count as a taken seat of [event_id]. *)
Lemma cancel_frees_row l booking_id b event_id :
  NoDup (map Booking.id l) ->
  find (fun x => Booking.id x =? booking_id) l = Some b ->
  is_confirmed_for event_id b = true ->
  S (List.length
       (filter (is_confirmed_for event_id)
          (map (fun x => if Booking.id x =? booking_id
                         then Booking.set_status b "cancelled" else x) l)))
  = List.length (filter (is_confirmed_for event_id) l).
Proof.
  induction l as [|a l IH]; cbn [find map filter]; [discriminate|].
  intros Hnd Hfind Hconf. inversion Hnd as [|? ? Hnotin Hnd']; subst.
  destruct (Z.eqb_spec (Booking.id a) booking_id) as [Ha|Ha].
  - inversion Hfind; subst a.
    rewrite map_put_absent by congruence.
    rewrite Hconf.
    assert (Hc : is_confirmed_for event_id (Booking.set_status b "cancelled")
                 = false).
    { unfold is_confirmed_for. cbn. apply andb_false_r. }
    now rewrite Hc.
  - specialize (IH Hnd' Hfind Hconf).
    destruct (is_confirmed_for event_id a); cbn [List.length]; congruence.
Qed.

Lemma cancel_keeps_other_rows l booking_id b event_id :
  Booking.event_id b <> event_id ->
  find (fun x => Booking.id x =? booking_id) l = Some b ->
  NoDup (map Booking.id l) ->
  filter (is_confirmed_for event_id)
    (map (fun x => if Booking.id x =? booking_id
                   then Booking.set_status b "cancelled" else x) l)
  = filter (is_confirmed_for event_id) l.
Proof.
  intros Hev. induction l as [|a l IH]; cbn [find map filter];
    [reflexivity|].
  intros Hfind Hnd. inversion Hnd as [|? ? Hnotin Hnd']; subst.
  assert (Hb : is_confirmed_for event_id b = false).
  { unfold is_confirmed_for. apply Z.eqb_neq in Hev. now rewrite Hev. }
  assert (Hc : is_confirmed_for event_id (Booking.set_status b "cancelled")
               = false).
  { unfold is_confirmed_for. cbn. apply andb_false_r. }
  destruct (Z.eqb_spec (Booking.id a) booking_id) as [Ha|Ha].
  - inversion Hfind; subst a. rewrite Hb, Hc.
    now rewrite map_put_absent by congruence.
  - rewrite (IH Hfind Hnd'). reflexivity.
Qed.

(** X8: when booking keys are distinct, cancelling a confirmed booking (as
    its owner or as an admin) gives its seat back: the event's count of taken
    seats drops by exactly one and no other event's count changes. *)
Theorem cancel_confirmed_frees_seat w u booking_id b :
  NoDup (map Booking.id (bookings (db w))) ->
  get_booking (db w) booking_id = Some b ->
  Booking.user_id b = User.id u \/ User.role u = "admin" ->
  Booking.status b = "confirmed" ->
  seats_taken (db (fst (cancel_booking w u booking_id))) (Booking.event_id b)
  = seats_taken (db w) (Booking.event_id b) - 1
  /\ (forall e, e <> Booking.event_id b ->
        seats_taken (db (fst (cancel_booking w u booking_id))) e
        = seats_taken (db w) e).
Proof.
  intros Hnd Hget Hauth Hs.
  pose proof (get_booking_id _ _ _ Hget) as Hid.
  unfold cancel_booking. rewrite Hget.
  assert (Hok : negb (Booking.user_id b =? User.id u)
                && negb (str_in (User.role u) ["admin"]) = false).
  { destruct Hauth as [->| ->]; [now rewrite Z.eqb_refl|].
    cbn. apply andb_false_r. }
  rewrite Hok. cbn [fst db]. unfold seats_taken, put_booking.
  cbn [bookings Booking.id Booking.set_status]. rewrite Hid. split.
  - assert (Hconf : is_confirmed_for (Booking.event_id b) b = true).
    { unfold is_confirmed_for. now rewrite Z.eqb_refl, Hs. }
    pose proof (cancel_frees_row _ _ _ _ Hnd Hget Hconf) as Hrow.
    lia.
  - intros e He. f_equal. f_equal.
    apply cancel_keeps_other_rows; [congruence|exact Hget|exact Hnd].
Qed.

(** X9: once a user's only active booking for an event is cancelled (by the
    owner or an admin), the lookup [book_event] makes for an existing booking
    of that user and event finds nothing, and a new request of that user for
    the event that passes the checks made before the lookup (the role may
    book, the event is approved or the user is an admin, and a seat is left
    or the event is unbounded) appends a new pending booking of the user for
    the event and is answered 201 with the new booking's key. *)
Theorem cancel_allows_rebooking w u booking_id b :
  get_booking (db w) booking_id = Some b ->
  Booking.user_id b = User.id u \/ User.role u = "admin" ->
  (forall x, In x (bookings (db w)) ->
             Booking.user_id x = Booking.user_id b ->
             Booking.event_id x = Booking.event_id b ->
             Booking.status x <> "cancelled" ->
             Booking.id x = booking_id) ->
  let w' := fst (cancel_booking w u booking_id) in
  existing_booking (db w') (Booking.user_id b) (Booking.event_id b) = None
  /\ (forall rt owner tk ev,
        User.id owner = Booking.user_id b ->
        get_event (db w') (Booking.event_id b) = Some ev ->
        (User.role owner = "student" \/ User.role owner = "faculty"
         \/ User.role owner = "organizer" \/ User.role owner = "admin") ->
        (Event.status ev = "approved" \/ User.role owner = "admin") ->
        (seats_available (db w') ev = None
         \/ exists a, seats_available (db w') ev = Some a /\ 0 < a) ->
        exists fresh,
          bookings (db (fst (book_event rt w' owner (Booking.event_id b) tk)))
          = (bookings (db w') ++ [fresh])%list
          /\ Booking.user_id fresh = Booking.user_id b
          /\ Booking.event_id fresh = Booking.event_id b
          /\ Booking.status fresh = "pending"
          /\ Booking.ticket_id fresh = tk
          /\ snd (book_event rt w' owner (Booking.event_id b) tk)
             = Json (Booked (Booking.id fresh) tk None) 201).
Proof.
  intros Hget Hauth Honly. cbv zeta.
  assert (Hnone : existing_booking
                    (db (fst (cancel_booking w u booking_id)))
                    (Booking.user_id b) (Booking.event_id b) = None).
  { unfold cancel_booking. rewrite Hget.
    assert (Hok : negb (Booking.user_id b =? User.id u)
                  && negb (str_in (User.role u) ["admin"]) = false).
    { destruct Hauth as [->| ->]; [now rewrite Z.eqb_refl|].
      cbn. apply andb_false_r. }
    rewrite Hok. cbn [fst db].
    destruct (existing_booking _ _ _) as [b'|] eqn:Hex; [|reflexivity].
    exfalso. apply existing_booking_sound in Hex.
    destruct Hex as (Hin & Hu & He & Hs).
    unfold put_booking in Hin. cbn [bookings] in Hin.
    apply in_map_iff in Hin. destruct Hin as (x & Hx & Hxin).
    pose proof (get_booking_id _ _ _ Hget) as Hid.
    cbn [Booking.id Booking.set_status] in Hx.
    destruct (Z.eqb_spec (Booking.id x) (Booking.id b)) as [Heq|Hne].
    - subst b'. now apply Hs.
    - subst b'. apply Hne. rewrite Hid. now apply Honly. }
  split; [exact Hnone|].
  intros rt owner tk ev Howner Hev Hrole Hgate Hseats.
  set (w' := fst (cancel_booking w u booking_id)) in *.
  assert (Heid : Event.id ev = Booking.event_id b).
  { unfold get_event in Hev. apply find_some in Hev.
    now apply Z.eqb_eq. }
  pose proof (book_event_cases rt w' owner (Booking.event_id b) tk ev Hev)
    as Hcases.
  cbv zeta in Hcases. rewrite Howner, Heid, Hnone in Hcases.
  apply str_in_bookers in Hrole.
  destruct Hcases
    as [[Hr _]|[(_ & Hst & Hadm & _)|[(_ & _ & (a & Ha & Hle) & _)
       |[(_ & _ & _ & b' & Hb' & _)|(_ & _ & _ & _ & Hrows & Hresp)]]]].
  - congruence.
  - destruct Hgate; contradiction.
  - exfalso. destruct Hseats as [Hn|(a' & Ha' & Hpos)]; [congruence|].
    rewrite Ha in Ha'. inversion Ha'. lia.
  - discriminate.
  - exists (new_booking w' owner ev tk).
    cbn [new_booking Booking.user_id Booking.event_id Booking.status
         Booking.ticket_id].
    repeat split; try assumption; try reflexivity.
Qed.

(** X10: [organizer_approve_booking], called by an admin or by the organizer
    who owns the booking's event, sets [organizer_approved], leaves
    [faculty_approved] as it was, and leaves the booking confirmed exactly
    when the faculty flag was already set or the booking was already
    confirmed; otherwise the status stays what it was. *)
Theorem organizer_approve_outcome rt w u booking_id b :
  get_booking (db w) booking_id = Some b ->
  User.role u = "admin"
  \/ (User.role u = "organizer"
      /\ exists ev, get_event (db w) (Booking.event_id b) = Some ev
                    /\ Event.organizer_id ev = User.id u) ->
  exists b',
    get_booking (db (fst (organizer_approve_booking rt w u booking_id)))
      booking_id = Some b'
    /\ Booking.organizer_approved b' = true
    /\ Booking.faculty_approved b' = Booking.faculty_approved b
    /\ (Booking.status b' = "confirmed"
        <-> Booking.faculty_approved b = true
            \/ Booking.status b = "confirmed")
    /\ (Booking.status b' = Booking.status b
        \/ Booking.status b' = "confirmed")
    /\ snd (organizer_approve_booking rt w u booking_id)
       = Redirect "organizer_bookings" None "Booking approved by organizer".
Proof.
  intros Hget Hauth.
  set (b1 := Booking.set_organizer_approved b true).
  set (event := get_event (db w) (Booking.event_id b)).
  set (owner := get_user (db w) (Booking.user_id b)).
  set (b' := fst (finalize_booking_if_ready rt event owner b1)).
  assert (Hout : organizer_approve_booking rt w u booking_id
                 = (mkWorld (put_booking (db w) b')
                            (outbox w
                             ++ snd (finalize_booking_if_ready rt event owner
                                       b1)),
                    Redirect "organizer_bookings" None
                      "Booking approved by organizer")).
  { unfold organizer_approve_booking, role_required. rewrite Hget.
    fold event owner b1. unfold b'.
    destruct (finalize_booking_if_ready rt event owner b1) as [b2 sent].
    cbn [fst snd].
    destruct Hauth as [Hadm|(Horg & ev & Hev & Hown)].
    - rewrite Hadm. reflexivity.
    - rewrite Horg. cbn [str_in existsb String.eqb negb orb].
      cbn. unfold event in *. rewrite Hev. rewrite Hown, Z.eqb_refl.
      reflexivity. }
  rewrite Hout. cbn [fst snd db].
  exists b'. 
  pose proof (finalize_status_iff rt event owner b1) as Hiff.
  pose proof (finalize_keeps_id rt event owner b1) as Hid.
  pose proof (finalize_keeps_columns rt event owner b1) as Hcols.
  cbv zeta in Hcols. fold b' in Hiff, Hid, Hcols.
  destruct Hcols as (_ & _ & _ & Hf & Ho).
  repeat split.
  - apply (get_put_booking _ _ b b' Hget). exact Hid.
  - exact Ho.
  - exact Hf.
  - intros Hc. apply Hiff in Hc. cbn in Hc. tauto.
  - intros Hc. apply Hiff. cbn. tauto.
  - exact (finalize_status rt event owner b1).
Qed.

(** X11: [faculty_approve_booking], called by a faculty member on a booking
    of an event that requires faculty approval, sets [faculty_approved],
    leaves [organizer_approved] as it was, and leaves the booking confirmed
    exactly when the organizer flag was already set or the booking was
    already confirmed; on an event that does not require faculty approval it
    declines and changes nothing. *)
Theorem faculty_approve_outcome rt w u booking_id b ev :
  User.role u = "faculty" ->
  get_booking (db w) booking_id = Some b ->
  get_event (db w) (Booking.event_id b) = Some ev ->
  (Event.requires_faculty_approval ev = false ->
   faculty_approve_booking rt w u booking_id
   = (w, Redirect "faculty_bookings" None
           "This booking does not require faculty approval."))
  /\ (Event.requires_faculty_approval ev = true ->
      exists b',
        get_booking (db (fst (faculty_approve_booking rt w u booking_id)))
          booking_id = Some b'
        /\ Booking.faculty_approved b' = true
        /\ Booking.organizer_approved b' = Booking.organizer_approved b
        /\ (Booking.status b' = "confirmed"
            <-> Booking.organizer_approved b = true
                \/ Booking.status b = "confirmed")
        /\ (Booking.status b' = Booking.status b
            \/ Booking.status b' = "confirmed")).
Proof.
  intros Hrole Hget Hev.
  unfold faculty_approve_booking, role_required.
  rewrite Hrole, Hget, Hev. cbn [str_in existsb String.eqb negb orb]. cbn -[finalize_booking_if_ready put_booking get_booking].
  split; intros Hreq; rewrite Hreq; cbn [negb]; [reflexivity|].
  set (b1 := Booking.set_faculty_approved b true).
  set (owner := get_user (db w) (Booking.user_id b)).
  pose proof (finalize_status_iff rt (Some ev) owner b1) as Hiff.
  pose proof (finalize_keeps_id rt (Some ev) owner b1) as Hid.
  pose proof (finalize_keeps_columns rt (Some ev) owner b1) as Hcols.
  pose proof (finalize_status rt (Some ev) owner b1) as Hst.
  cbv zeta in Hcols, Hst.
  destruct (finalize_booking_if_ready rt (Some ev) owner b1) as [b' sent].
  cbn [fst db] in *.
  destruct Hcols as (_ & _ & _ & Hf & Ho).
  exists b'. repeat split.
  - apply (get_put_booking _ _ b b' Hget). exact Hid.
  - exact Hf.
  - exact Ho.
  - intros Hc. apply Hiff in Hc. cbn in Hc. tauto.
  - intros Hc. apply Hiff. cbn. tauto.
  - exact Hst.
Qed.

(** X12: [organizer_approve_booking] refuses an organizer who does not own
    the booking's event with 403 and sends a user whose role is neither
    [organizer] nor [admin] back to the index; in both cases nothing
    changes. *)
Theorem organizer_approve_authorization rt w u booking_id :
  (User.role u <> "organizer" -> User.role u <> "admin" ->
   organizer_approve_booking rt w u booking_id
   = (w, Redirect "index" None "Access denied: insufficient permissions"))
  /\ (forall b ev,
        User.role u = "organizer" ->
        get_booking (db w) booking_id = Some b ->
        get_event (db w) (Booking.event_id b) = Some ev ->
        Event.organizer_id ev <> User.id u ->
        organizer_approve_booking rt w u booking_id = (w, Abort 403)).
Proof.
  unfold organizer_approve_booking, role_required. split.
  - intros Ho Ha.
    destruct (str_in (User.role u) ["organizer"; "admin"]) eqn:Hr;
      [|reflexivity].
    apply str_in_management in Hr. tauto.
  - intros b ev Hrole Hget Hev Hown. rewrite Hrole, Hget, Hev.
    cbn -[finalize_booking_if_ready put_booking].
    assert (Hne : (User.id u =? Event.organizer_id ev) = false)
      by (apply Z.eqb_neq; congruence).
    rewrite Hne.
    destruct (finalize_booking_if_ready _ _ _ _). reflexivity.
Qed.

(** ** Events and halls *)

Lemma get_event_id d i e : get_event d i = Some e -> Event.id e = i.
Proof.
  unfold get_event. intros H. apply find_some in H. now apply Z.eqb_eq.
Qed.

Lemma get_event_In d i e : get_event d i = Some e -> In e (events d).
Proof. unfold get_event. intros H. now apply find_some in H. Qed.

Lemma get_put_event d i e e' :
  get_event d i = Some e ->
  Event.id e' = Event.id e ->
  get_event (put_event d e') i = Some e'.
Proof.
  intros Hget Hid. pose proof (get_event_id _ _ _ Hget) as Hi.
  assert (He' : Event.id e' = i) by congruence.
  revert Hget. unfold get_event, put_event. cbn [events]. rewrite He'.
  induction (events d) as [|a l IH]; cbn [find map]; [discriminate|].
  destruct (Z.eqb_spec (Event.id a) i) as [Ha|Ha]; cbn [find].
  - intros _. now rewrite He', Z.eqb_refl.
  - intros Hget. rewrite (proj2 (Z.eqb_neq _ _) Ha). now apply IH.
Qed.

Lemma get_hall_id d i h : get_hall d i = Some h -> Hall.id h = i.
Proof.
  unfold get_hall. intros H. apply find_some in H. now apply Z.eqb_eq.
Qed.

Lemma get_put_hall d i h h' :
  get_hall d i = Some h ->
  Hall.id h' = Hall.id h ->
  get_hall (put_hall d h') i = Some h'.
Proof.
  intros Hget Hid. pose proof (get_hall_id _ _ _ Hget) as Hi.
  assert (Hh' : Hall.id h' = i) by congruence.
  revert Hget. unfold get_hall, put_hall. cbn [halls]. rewrite Hh'.
  induction (halls d) as [|a l IH]; cbn [find map]; [discriminate|].
  destruct (Z.eqb_spec (Hall.id a) i) as [Ha|Ha]; cbn [find].
  - intros _. now rewrite Hh', Z.eqb_refl.
  - intros Hget. rewrite (proj2 (Z.eqb_neq _ _) Ha). now apply IH.
Qed.

(** What a negative answer of the conflict check excludes. *)
Lemma no_conflict_excludes d hall_id st et exclude e :
  has_conflict d hall_id st et exclude = false ->
  In e (events d) ->
  Event.status e = "approved" ->
  Event.hall_id e = hall_id ->
  (forall x, exclude = Some x -> Event.id e <> x) ->
  ~ (Event.start_time e < et /\ Event.end_time e > st).
Proof.
  unfold has_conflict. intros Hc Hin Hs Hh Hx [H1 H2].
  assert (Hin' : In e (conflicts d hall_id st et exclude)).
  { apply conflicts_In. now repeat split. }
  destruct (conflicts d hall_id st et exclude); [destruct Hin'|discriminate].
Qed.

(** Two events whose intervals share an instant. *)
Definition overlap (e1 e2 : Event.t) : Prop :=
  Event.start_time e1 < Event.end_time e2
  /\ Event.start_time e2 < Event.end_time e1.

(** No two approved events with different keys hold the same hall at
    overlapping times. *)
Definition no_double_booking (d : DB) : Prop :=
  forall e1 e2,
    In e1 (events d) -> In e2 (events d) ->
    Event.id e1 <> Event.id e2 ->
    Event.status e1 = "approved" -> Event.status e2 = "approved" ->
    Event.hall_id e1 = Event.hall_id e2 ->
    ~ overlap e1 e2.

Lemma create_event_keeps_schedule rt w u form :
  no_double_booking (db w) ->
  no_double_booking (db (fst (create_event rt w u form))).
Proof.
  intros Hinv.
  destruct (create_event_cases rt w u form)
    as [[-> _]|(title & hid & st & et & hall & ev & _ & _ & _ & _ & _ & _ & _
                & _ & _ & Hc & _ & _ & Hev & _ & _ & _ & _ & Hhid & Hst & Het
                & _)];
    [exact Hinv|].
  intros e1 e2 H1 H2 Hid Hs1 Hs2 Hh. rewrite Hev in H1, H2.
  apply in_app_or in H1, H2. unfold overlap.
  destruct H1 as [H1|[<-|[]]]; destruct H2 as [H2|[<-|[]]].
  - now apply Hinv.
  - pose proof (no_conflict_excludes _ _ _ _ _ e1 Hc H1 Hs1) as Hno.
    rewrite Hst, Het. intros [Ha Hb]. apply Hno; [congruence|discriminate|lia].
  - pose proof (no_conflict_excludes _ _ _ _ _ e2 Hc H2 Hs2) as Hno.
    rewrite Hst, Het. intros [Ha Hb]. apply Hno; [congruence|discriminate|lia].
  - contradiction.
Qed.

Lemma admin_approve_keeps_schedule w u event_id :
  no_double_booking (db w) ->
  no_double_booking (db (fst (admin_approve_event w u event_id))).
Proof.
  intros Hinv. unfold admin_approve_event, role_required.
  destruct (negb (str_in (User.role u) ["admin"])); [exact Hinv|].
  destruct (get_event (db w) event_id) as [ev|] eqn:Hev; [|exact Hinv].
  destruct (get_hall (db w) (Event.hall_id ev)); [|exact Hinv].
  destruct (String.eqb (Hall.status t) "blocked"); [exact Hinv|].
  destruct (has_conflict _ _ _ _ _) eqn:Hc; [exact Hinv|].
  cbn [fst db]. pose proof (get_event_In _ _ _ Hev) as Hevin.
  assert (Hside : forall x,
             In x (events (db w)) -> Event.id x <> Event.id ev ->
             Event.status x = "approved" ->
             Event.hall_id x = Event.hall_id ev ->
             ~ overlap x ev /\ ~ overlap ev x).
  { intros x Hx Hne Hs Hh.
    pose proof (no_conflict_excludes _ _ _ _ _ x Hc Hx Hs Hh) as Hno.
    unfold overlap. split; intros [Ha Hb]; apply Hno;
      try (intros y Hy; inversion Hy; congruence); lia. }
  intros e1 e2 H1 H2 Hid Hs1 Hs2 Hh.
  unfold put_event in H1, H2. cbn [events] in H1, H2.
  apply in_map_iff in H1, H2.
  destruct H1 as (x1 & Hx1 & Hin1). destruct H2 as (x2 & Hx2 & Hin2).
  cbn [Event.id Event.set_status] in Hx1, Hx2.
  destruct (Z.eqb_spec (Event.id x1) (Event.id ev)) as [E1|E1];
    destruct (Z.eqb_spec (Event.id x2) (Event.id ev)) as [E2|E2];
    subst e1 e2; cbn in *.
  - contradiction.
  - intros Hov. apply (proj2 (Hside x2 Hin2 E2 Hs2 (eq_sym Hh))).
    exact Hov.
  - intros Hov. apply (proj1 (Hside x1 Hin1 E1 Hs1 Hh)). exact Hov.
  - now apply Hinv.
Qed.

Lemma edit_event_keeps_schedule w u event_id form :
  no_double_booking (db w) ->
  no_double_booking (db (fst (edit_event w u event_id form))).
Proof.
  intros Hinv. unfold edit_event, role_required.
  destruct (negb (str_in (User.role u) ["organizer"; "admin"]));
    [exact Hinv|].
  destruct (get_event (db w) event_id) as [ev|] eqn:Hev; [|exact Hinv].
  destruct (negb (User.id u =? Event.organizer_id ev)
            && negb (String.eqb (User.role u) "admin")); [exact Hinv|].
  pose proof (get_event_In _ _ _ Hev) as Hevin.
  destruct (EventForm.capacity form); destruct (EventForm.title form);
    try exact Hinv;
    (destruct (fits_integer _); cbn [negb]; [|exact Hinv]); cbn [fst db].
  all: intros e1 e2 H1 H2 Hid Hs1 Hs2 Hh;
    unfold put_event in H1, H2; cbn [events] in H1, H2;
    apply in_map_iff in H1, H2;
    destruct H1 as (x1 & Hx1 & Hin1); destruct H2 as (x2 & Hx2 & Hin2);
    cbn [Event.id] in Hx1, Hx2;
    destruct (Z.eqb_spec (Event.id x1) (Event.id ev)) as [E1|E1];
    destruct (Z.eqb_spec (Event.id x2) (Event.id ev)) as [E2|E2];
    subst e1 e2; cbn in *; try contradiction.
  all: try (apply (Hinv ev x2); assumption).
  all: try (apply (Hinv x1 ev); assumption).
  all: now apply Hinv.
Qed.

(** X13: the schedule invariant, that no two approved events with different
    keys hold the same hall at overlapping times, is kept by every handler
    that writes events: [create_event], [admin_approve_event] and
    [edit_event]. *)
Theorem handlers_keep_schedule w :
  no_double_booking (db w) ->
  (forall rt u form, no_double_booking (db (fst (create_event rt w u form))))
  /\ (forall u event_id,
        no_double_booking (db (fst (admin_approve_event w u event_id))))
  /\ (forall u event_id form,
        no_double_booking (db (fst (edit_event w u event_id form)))).
Proof.
  intros Hinv. repeat split; intros.
  - now apply create_event_keeps_schedule.
  - now apply admin_approve_keeps_schedule.
  - now apply edit_event_keeps_schedule.
Qed.

(** X14: [admin_approve_event] is for admins only; for an admin it leaves
    everything as it is when the event's hall is blocked or another approved
    event of that hall overlaps, and otherwise the event is afterwards found
    with status [approved] and every other field as before, while halls,
    bookings and users are untouched. *)
Theorem admin_approve_event_outcome w u event_id :
  (User.role u <> "admin" ->
   admin_approve_event w u event_id
   = (w, Redirect "index" None "Access denied: insufficient permissions"))
  /\ (forall ev hall,
        User.role u = "admin" ->
        get_event (db w) event_id = Some ev ->
        get_hall (db w) (Event.hall_id ev) = Some hall ->
        (Hall.status hall = "blocked" ->
         fst (admin_approve_event w u event_id) = w)
        /\ (has_conflict (db w) (Event.hall_id ev) (Event.start_time ev)
              (Event.end_time ev) (Some (Event.id ev)) = true ->
            fst (admin_approve_event w u event_id) = w)
        /\ (Hall.status hall <> "blocked" ->
            has_conflict (db w) (Event.hall_id ev) (Event.start_time ev)
              (Event.end_time ev) (Some (Event.id ev)) = false ->
            get_event (db (fst (admin_approve_event w u event_id))) event_id
            = Some (Event.set_status ev "approved")
            /\ halls (db (fst (admin_approve_event w u event_id)))
               = halls (db w)
            /\ bookings (db (fst (admin_approve_event w u event_id)))
               = bookings (db w)
            /\ users (db (fst (admin_approve_event w u event_id)))
               = users (db w))).
Proof.
  unfold admin_approve_event, role_required. split.
  - intros Hr. apply String.eqb_neq in Hr. unfold str_in. cbn [existsb].
    now rewrite Hr.
  - intros ev hall Hr Hev Hhall. rewrite Hr, Hev, Hhall. cbn [str_in existsb String.eqb negb orb]. cbn -[has_conflict put_event get_event].
    split; [|split].
    + intros Hb. now rewrite Hb.
    + intros Hc. rewrite Hc. now destruct (String.eqb (Hall.status hall) "blocked").
    + intros Hb Hc. apply String.eqb_neq in Hb. rewrite Hb, Hc. cbn [fst db].
      repeat split. now apply (get_put_event _ _ ev).
Qed.

(** X15: once an admin has blocked a hall, no event can be created in it and
    no pending event of it can be approved, whoever asks; blocking touches no
    event and no booking; and any other [action] value sets the hall free. *)
Theorem block_hall_stops_admission w u hall_id hall :
  User.role u = "admin" ->
  get_hall (db w) hall_id = Some hall ->
  let w' := fst (admin_block_hall w u hall_id (Some "block")) in
  (forall rt u' form,
     EventForm.hall_id form = value hall_id ->
     fst (create_event rt w' u' form) = w')
  /\ (forall u' event_id ev,
        get_event (db w') event_id = Some ev ->
        Event.hall_id ev = hall_id ->
        fst (admin_approve_event w' u' event_id) = w')
  /\ events (db w') = events (db w)
  /\ bookings (db w') = bookings (db w)
  /\ (forall action,
        action <> Some "block" ->
        option_map Hall.status
          (get_hall (db (fst (admin_block_hall w u hall_id action))) hall_id)
        = Some "free").
Proof.
  intros Hr Hhall. cbv zeta.
  assert (Hw : forall action,
             fst (admin_block_hall w u hall_id action)
             = mkWorld
                 (put_hall (db w)
                    (hall_with_status hall
                       match action with
                       | Some a => if String.eqb a "block" then "blocked"
                                   else "free"
                       | None => "free"
                       end))
                 (outbox w)).
  { intros action. unfold admin_block_hall, role_required.
    rewrite Hr, Hhall. reflexivity. }
  rewrite Hw. cbn [String.eqb Ascii.eqb Bool.eqb].
  set (w' := mkWorld (put_hall (db w) (hall_with_status hall "blocked"))
                     (outbox w)).
  assert (Hblocked : get_hall (db w') hall_id
                     = Some (hall_with_status hall "blocked")).
  { apply (get_put_hall _ _ hall); [exact Hhall|reflexivity]. }
  split; [|split; [|split; [|split]]]; try reflexivity.
  - intros rt u' form Hform.
    destruct (create_event_cases rt w' u' form)
      as [[Hsame _]|(title & hid & st & et & h & ev & _ & _ & _ & Hh & _ & _
                     & _ & Hget & Hfree & _)]; [exact Hsame|].
    exfalso. rewrite Hform in Hh. inversion Hh; subst hid.
    rewrite Hblocked in Hget. inversion Hget; subst h. now apply Hfree.
  - intros u' event_id ev Hev Hh.
    unfold admin_approve_event, role_required.
    destruct (negb (str_in (User.role u') ["admin"])); [reflexivity|].
    rewrite Hev, Hh, Hblocked. reflexivity.
  - intros action Hact. rewrite Hw. cbn [db].
    match goal with
    | |- context [put_hall _ ?h'] =>
        rewrite (get_put_hall _ _ hall h' Hhall eq_refl)
    end.
    cbn.
    destruct action as [a|]; [|reflexivity].
    destruct (String.eqb_spec a "block") as [->|]; [contradiction|reflexivity].
Qed.

(** X16: [edit_event] lets only the event's organizer or an admin through
    (anyone else with the organizer role is told [Not allowed] and nothing
    changes).  For them, an edit with a title and a capacity that is absent
    or an integer fitting a signed 64-bit integer is stored: it sets the
    title, sets [requires_faculty_approval] to the truth value of the form's
    field and the capacity to the form's number (0 when absent), and never
    changes the event's key, hall, start, end, status or organizer; an edit
    without a title, or with a capacity that is not an integer or does not
    fit, ends in a server error and changes nothing. *)
Theorem edit_event_outcome w u event_id form ev :
  User.role u = "organizer" \/ User.role u = "admin" ->
  get_event (db w) event_id = Some ev ->
  (User.id u <> Event.organizer_id ev -> User.role u <> "admin" ->
   edit_event w u event_id form
   = (w, Redirect "event_detail" (Some event_id) "Not allowed"))
  /\ (forall title,
        User.id u = Event.organizer_id ev \/ User.role u = "admin" ->
        EventForm.title form = Some title ->
        EventForm.capacity form <> malformed ->
        - 2 ^ 63 <= int_or_zero (EventForm.capacity form) < 2 ^ 63 ->
        exists ev',
          get_event (db (fst (edit_event w u event_id form))) event_id
          = Some ev'
          /\ Event.requires_faculty_approval ev'
             = truthy_str (EventForm.requires_faculty form)
          /\ Event.capacity ev'
             = Some (int_or_zero (EventForm.capacity form))
          /\ Event.title ev' = title
          /\ Event.id ev' = Event.id ev
          /\ Event.hall_id ev' = Event.hall_id ev
          /\ Event.start_time ev' = Event.start_time ev
          /\ Event.end_time ev' = Event.end_time ev
          /\ Event.status ev' = Event.status ev
          /\ Event.organizer_id ev' = Event.organizer_id ev)
  /\ (User.id u = Event.organizer_id ev \/ User.role u = "admin" ->
      EventForm.title form = None
      \/ EventForm.capacity form = malformed
      \/ ~ - 2 ^ 63 <= int_or_zero (EventForm.capacity form) < 2 ^ 63 ->
      edit_event w u event_id form = (w, Abort 500)).
Proof.
  intros Hrole Hev. apply str_in_management in Hrole.
  unfold edit_event, role_required. rewrite Hrole, Hev. cbn [negb].
  assert (Hok : User.id u = Event.organizer_id ev \/ User.role u = "admin" ->
                negb (User.id u =? Event.organizer_id ev)
                && negb (String.eqb (User.role u) "admin") = false).
  { intros [->| ->]; [now rewrite Z.eqb_refl|]. cbn. apply andb_false_r. }
  split; [|split].
  - intros Hown Hadm. apply Z.eqb_neq in Hown. apply String.eqb_neq in Hadm.
    now rewrite Hown, Hadm.
  - intros title Hauth Ht Hcap Hfit.
    rewrite (Hok Hauth), Ht. apply fits_integer_iff in Hfit.
    destruct (EventForm.capacity form) eqn:Hc; try contradiction;
      rewrite Hfit; cbn [negb fst db]; eexists;
      (split; [apply (get_put_event _ _ ev); [exact Hev|reflexivity]|]);
      repeat split.
  - intros Hauth Hbad. rewrite (Hok Hauth).
    destruct (EventForm.capacity form) as [| |c] eqn:Hc;
      destruct (EventForm.title form) as [title|] eqn:Ht; try reflexivity.
    + destruct Hbad as [H|[H|H]]; try discriminate.
      exfalso. apply H. cbn. lia.
    + destruct Hbad as [H|[H|H]]; try discriminate.
      destruct (fits_integer (int_or_zero (value c))) eqn:Hf; [|reflexivity].
      apply fits_integer_iff in Hf. contradiction.
Qed.

(** ** Accounts *)

Definition emails (d : DB) : list string :=
  flat_map (fun u => option_list (User.email u)) (users d).

Lemma user_by_email_none d email :
  user_by_email d email = None -> ~ In email (emails d).
Proof.
  unfold user_by_email, emails. intros Hnone Hin.
  apply in_flat_map in Hin. destruct Hin as (u & Hu & He).
  pose proof (find_none _ _ Hnone u Hu) as Hf. cbn in Hf.
  destruct (User.email u) as [e|]; [|destruct He].
  destruct He as [->|[]]. now rewrite String.eqb_refl in Hf.
Qed.

(** X17: [register] turns down a request without an email or a password and
    one whose email is already registered, changing nothing; any other
    request appends one active user with that email and with the role the
    form names, whatever it is ([student] when the form names none): the
    role is not checked against the roles a visitor may take. *)
Theorem register_outcome w form :
  (truthy_str (reg_email form) = false
   \/ truthy_str (reg_password form) = false ->
   register w form
   = (w, Redirect "register" None "Email and password required"))
  /\ (forall email taken,
        reg_email form = Some email -> email <> "" ->
        truthy_str (reg_password form) = true ->
        user_by_email (db w) email = Some taken ->
        register w form
        = (w, Redirect "register" None "Email already registered"))
  /\ (forall email,
        reg_email form = Some email -> email <> "" ->
        truthy_str (reg_password form) = true ->
        user_by_email (db w) email = None ->
        exists user,
          users (db (fst (register w form))) = (users (db w) ++ [user])%list
          /\ User.email user = Some email
          /\ User.active user = true
          /\ (forall r, reg_role form = Some r -> User.role user = r)
          /\ (reg_role form = None -> User.role user = "student")
          /\ halls (db (fst (register w form))) = halls (db w)
          /\ events (db (fst (register w form))) = events (db w)
          /\ bookings (db (fst (register w form))) = bookings (db w)
          /\ snd (register w form)
             = Redirect "login" None "Registration successful. Please login.").
Proof.
  unfold register. split; [|split].
  - intros [H|H]; rewrite H; [reflexivity|]. now rewrite orb_true_r.
  - intros email taken He Hne Hp Hu. rewrite He, Hp, Hu. cbn [truthy_str].
    apply String.eqb_neq in Hne. now rewrite Hne.
  - intros email He Hne Hp Hu. rewrite He, Hp, Hu. cbn [truthy_str].
    apply String.eqb_neq in Hne. rewrite Hne. cbn [negb orb fst snd db].
    eexists. repeat split; cbn.
    + intros r Hr. now rewrite Hr.
    + intros Hr. now rewrite Hr.
Qed.

(** X18: if no two users share an email, that still holds after [register]
    and after [admin_users], whatever the form: the lookup both make before
    inserting keeps emails unique. *)
Theorem accounts_keep_emails_unique w form :
  NoDup (emails (db w)) ->
  NoDup (emails (db (fst (register w form))))
  /\ (forall u, NoDup (emails (db (fst (admin_users w u form))))).
Proof.
  intros Hnd.
  assert (Hadd : forall email user,
             user_by_email (db w) email = None ->
             User.email user = Some email ->
             NoDup (emails (add_user (db w) user))).
  { intros email user Hnone He. unfold emails, add_user. cbn [users].
    rewrite flat_map_app. cbn [flat_map]. rewrite He. cbn [option_list app].
    apply NoDup_app; [exact Hnd|constructor; [intros []|constructor]|].
    intros a Ha [<-|[]]. revert Ha. now apply user_by_email_none. }
  split.
  - unfold register.
    destruct (negb (truthy_str (reg_email form))
              || negb (truthy_str (reg_password form))); [exact Hnd|].
    destruct (reg_email form) as [email|]; [|exact Hnd].
    destruct (user_by_email (db w) email) eqn:Hu; [exact Hnd|].
    cbn [fst db]. now apply (Hadd email).
  - intros u. unfold admin_users, role_required.
    destruct (negb (str_in (User.role u) ["admin"])); [exact Hnd|].
    destruct (negb (truthy_str (reg_email form))); [exact Hnd|].
    destruct (reg_email form) as [email|]; [|exact Hnd].
    destruct (user_by_email (db w) email) eqn:Hu; [exact Hnd|].
    cbn [fst db]. now apply (Hadd email).
Qed.

(** ** Settings *)

Lemma setting_row_assign_first settings key value :
  setting_row settings key <> None ->
  exists s, setting_row (assign_first settings key value) key = Some s
            /\ setting_value s = value.
Proof.
  unfold setting_row.
  induction settings as [|a l IH]; cbn [find assign_first]; [congruence|].
  destruct (String.eqb_spec (setting_key a) key) as [Ha|Ha].
  - intros _. cbn [find setting_key]. rewrite Ha, String.eqb_refl.
    now eexists.
  - intros H. cbn [find]. apply String.eqb_neq in Ha. rewrite Ha.
    now apply IH.
Qed.

Lemma setting_row_assign_other settings key value key' :
  key' <> key ->
  setting_row (assign_first settings key value) key'
  = setting_row settings key'.
Proof.
  intros Hne. unfold setting_row.
  induction settings as [|a l IH]; cbn [find assign_first]; [reflexivity|].
  destruct (String.eqb_spec (setting_key a) key) as [Ha|Ha].
  - cbn [find setting_key]. rewrite Ha.
    assert (Hk : String.eqb key key' = false)
      by (apply String.eqb_neq; congruence).
    now rewrite Hk.
  - cbn [find]. destruct (String.eqb (setting_key a) key');
      [reflexivity|exact IH].
Qed.

(** Reading after writing, for the written key and for the others. *)
Lemma settings_round_trip_aux settings key value :
  (forall default,
     get_setting (set_setting settings key value) key default = value)
  /\ (forall key' default,
        key' <> key ->
        get_setting (set_setting settings key value) key' default
        = get_setting settings key' default).
Proof.
  unfold get_setting, set_setting. split.
  - intros default.
    destruct (setting_row settings key) as [s|] eqn:Hrow.
    + destruct (setting_row_assign_first settings key value) as (s' & -> & Hv);
        [congruence|exact Hv].
    + unfold setting_row in *. rewrite find_over_app, Hrow.
      cbn [find setting_key]. now rewrite String.eqb_refl.
  - intros key' default Hne.
    destruct (setting_row settings key) as [s|] eqn:Hrow.
    + now rewrite setting_row_assign_other.
    + unfold setting_row. rewrite find_over_app.
      destruct (find (fun s => String.eqb (setting_key s) key') settings);
        [reflexivity|].
      cbn [find setting_key].
      assert (Hk : String.eqb key key' = false)
        by (apply String.eqb_neq; congruence).
      now rewrite Hk.
Qed.

(** X19: a setting reads back as it was written, [get_setting] after
    [set_setting] of the same key returns the value written (not the
    default, even when the value is null), and writing one key leaves what
    every other key reads as unchanged, so two writes to different keys can
    be read back in either order. *)
Theorem settings_round_trip settings key value :
  (forall default,
     get_setting (set_setting settings key value) key default = value)
  /\ (forall key' default,
        key' <> key ->
        get_setting (set_setting settings key value) key' default
        = get_setting settings key' default)
  /\ (forall key' value' default,
        key' <> key ->
        get_setting (set_setting (set_setting settings key value) key' value')
          key default = value).
Proof.
  destruct (settings_round_trip_aux settings key value) as [Hsame Hother].
  repeat split; try assumption.
  intros key' value' default Hne.
  rewrite (proj2 (settings_round_trip_aux _ key' value')) by congruence.
  apply Hsame.
Qed.

(** X20: saving the mail settings with a blank password keeps the password
    that is stored (the empty string when none is), and with any other
    password stores that one; the server name read back is the stripped
    form value. *)
Theorem store_email_settings_password strip settings form :
  (forall default,
     get_setting (store_email_settings strip settings form) "MAIL_PASSWORD"
       default
     = if String.eqb (stripped strip (mail_password form)) ""
       then get_setting settings "MAIL_PASSWORD" (Some "")
       else Some (stripped strip (mail_password form)))
  /\ (forall default,
        get_setting (store_email_settings strip settings form) "MAIL_SERVER"
          default
        = Some (stripped strip (mail_server form))).
Proof.
  unfold store_email_settings. split; intros default.
  - rewrite (proj2 (settings_round_trip_aux _ _ _)) by discriminate.
    rewrite (proj2 (settings_round_trip_aux _ _ _)) by discriminate.
    rewrite (proj2 (settings_round_trip_aux _ _ _)) by discriminate.
    now rewrite (proj1 (settings_round_trip_aux _ _ _)).
  - do 6 (rewrite (proj2 (settings_round_trip_aux _ _ _)) by discriminate).
    now rewrite (proj1 (settings_round_trip_aux _ _ _)).
Qed.

Lemma store_email_settings_server strip settings form default :
  get_setting (store_email_settings strip settings form) "MAIL_SERVER" default
  = Some (stripped strip (mail_server form)).
Proof.
  unfold store_email_settings.
  do 6 (rewrite (proj2 (settings_round_trip_aux _ _ _)) by discriminate).
  now rewrite (proj1 (settings_round_trip_aux _ _ _)).
Qed.

(** X21: after an admin saves the mail settings, mail is switched off
    whenever the saved server name is blank or Flask-Mail is not installed,
    and then notifications send nothing; with a server name, the package and
    a successful initialisation, mail is on and uses the saved server.  A
    user who is not an admin changes neither the settings nor the runtime. *)
Theorem admin_email_settings_mail strip rt settings u form
    Mail_installed init_ok :
  let out :=
    admin_email_settings strip rt settings u form Mail_installed init_ok in
  let rt' := snd (fst out) in
  (User.role u <> "admin" -> fst out = (settings, rt))
  /\ (User.role u = "admin" ->
      (stripped strip (mail_server form) = "" \/ Mail_installed = false ->
       mail rt' = false
       /\ forall subj recipients,
            send_notification_email rt' subj recipients = [])
      /\ (stripped strip (mail_server form) <> "" ->
          Mail_installed = true -> init_ok = true ->
          mail rt' = true
          /\ MAIL_SERVER rt' = stripped strip (mail_server form))).
Proof.
  cbv zeta. unfold admin_email_settings. split.
  - intros Hr. apply String.eqb_neq in Hr. unfold str_in. cbn [existsb].
    now rewrite Hr.
  - intros Hr. rewrite Hr. cbn [str_in existsb String.eqb negb orb]. cbn -[store_email_settings load_email_settings send_notification_email].
    unfold load_email_settings.
    rewrite store_email_settings_server.
    cbn [mail MAIL_SERVER]. split.
    + intros Hoff.
      assert (Hm : (if Mail_installed
                       && negb (String.eqb
                                  (stripped strip (mail_server form)) "")
                    then init_ok else false) = false).
      { destruct Hoff as [->| ->]; [|reflexivity].
        now rewrite andb_false_r. }
      split; [exact Hm|].
      intros subj recipients. apply mail_off_notification. now left.
    + intros Hsrv -> ->. apply String.eqb_neq in Hsrv. now rewrite Hsrv.
Qed.

(** ** Upload names *)

Lemma after_last_app c stem ext :
  after_last c ext = None ->
  after_last c (stem ++ String c ext) = Some ext.
Proof.
  intros Hext. induction stem as [|a stem IH]; cbn [append after_last].
  - now rewrite Hext, Ascii.eqb_refl.
  - now rewrite IH.
Qed.

(** X22: [allowed_file] looks at what follows the last dot only and ignores
    the case of its letters: a name with no dot is refused, and a name
    [stem.ext] whose [ext] has no dot is accepted exactly when [ext] in lower
    case is one of png, jpg, jpeg, gif, pdf, whatever [stem] is. *)
Theorem allowed_file_last_extension :
  (forall name, after_last "."%char name = None -> allowed_file name = false)
  /\ (forall stem ext,
        after_last "."%char ext = None ->
        allowed_file (stem ++ String "."%char ext)
        = str_in (lower ext) ALLOWED).
Proof.
  unfold allowed_file. split.
  - intros name ->. reflexivity.
  - intros stem ext Hext. now rewrite after_last_app.
Qed.

Example allowed_file_examples :
  allowed_file "poster.PNG" = true
  /\ allowed_file "poster.png.exe" = false
  /\ allowed_file "archive.tar.Pdf" = true
  /\ allowed_file "poster" = false
  /\ allowed_file "poster." = false
  /\ allowed_file ".gif" = true.
Proof. vm_compute. repeat split. Qed.

(** ** The properties on the seed data *)

(** Flask-Mail is not installed. *)
Definition rt_no_mail : Runtime :=
  mkRuntime true (fun _ => true) true (fun _ _ _ => true) false
            "smtp.example.com" (fun _ => true) (fun _ => true).

Lemma mail_off_handlers_send_nothing_witness :
  outbox (fst (book_event rt_no_mail seed_world student 1 "ticket-0001")) = []
  /\ outbox (fst (create_event rt_no_mail seed_world organizer new_event_form))
     = [].
Proof.
  assert (Hoff : mail_off rt_no_mail) by (left; reflexivity).
  pose proof (mail_off_handlers_send_nothing rt_no_mail Hoff) as H.
  split.
  - exact (proj1 H seed_world student 1 "ticket-0001").
  - exact (proj1 (proj2 H) seed_world organizer new_event_form).
Defined.

(** With mail configured the same two requests do send: the booking goes
    to the student first, then to the organizer and the faculty member. *)
Example handlers_send_with_mail :
  let booked :=
    map recipient
        (outbox (fst (book_event rt_full seed_world student 1 "ticket-0001")))
  in
  hd_error booked = Some "student@example.com"
  /\ List.length booked = 3%nat
  /\ In "organizer@example.com" booked
  /\ In "faculty@example.com" booked
  /\ map recipient
         (outbox (fst (create_event rt_full seed_world organizer
                         new_event_form)))
     = ["student@example.com"].
Proof. vm_compute. intuition. Qed.

Lemma full_world_keys_distinct :
  NoDup (map Booking.id (bookings (db full_world))).
Proof.
  cbn. repeat constructor; cbn; intuition discriminate.
Qed.

Lemma cancel_confirmed_frees_seat_witness :
  seats_taken (db (fst (cancel_booking full_world student 1))) 2
  = seats_taken (db full_world) 2 - 1
  /\ seats_taken (db (fst (cancel_booking full_world student 1))) 3
     = seats_taken (db full_world) 3.
Proof.
  pose proof (cancel_confirmed_frees_seat full_world student 1 student_seat
                full_world_keys_distinct eq_refl (or_introl eq_refl) eq_refl)
    as H.
  split; [exact (proj1 H)|].
  apply (proj2 H). discriminate.
Defined.

Lemma cancel_allows_rebooking_witness :
  existing_booking (db (fst (cancel_booking booked_world student 1))) 3 1
  = None
  /\ exists fresh,
       bookings
         (db (fst (book_event rt_full
                     (fst (cancel_booking booked_world student 1))
                     student 1 "ticket-0002")))
       = (bookings (db (fst (cancel_booking booked_world student 1)))
          ++ [fresh])%list
       /\ Booking.user_id fresh = 3
       /\ Booking.event_id fresh = 1
       /\ Booking.status fresh = "pending"
       /\ Booking.ticket_id fresh = "ticket-0002"
       /\ snd (book_event rt_full
                 (fst (cancel_booking booked_world student 1))
                 student 1 "ticket-0002")
          = Json (Booked (Booking.id fresh) "ticket-0002" None) 201.
Proof.
  assert (Honly : forall x,
             In x (bookings (db booked_world)) ->
             Booking.user_id x = Booking.user_id pending_seat ->
             Booking.event_id x = Booking.event_id pending_seat ->
             Booking.status x <> "cancelled" ->
             Booking.id x = 1).
  { intros x [<-|[]] _ _ _. reflexivity. }
  pose proof (cancel_allows_rebooking booked_world student 1 pending_seat
                eq_refl (or_introl eq_refl) Honly) as H.
  split; [exact (proj1 H)|].
  apply (proj2 H rt_full student "ticket-0002" tech_talk).
  - reflexivity.
  - reflexivity.
  - left; reflexivity.
  - left; reflexivity.
  - right. exists 150. split; [reflexivity|lia].
Defined.

(** Book, cancel, book again: the second booking is a new row under a new
    key and the cancelled row stays. *)
Example book_cancel_book :
  let w1 := fst (book_event rt_full seed_world student 1 "ticket-0001") in
  let w2 := fst (cancel_booking w1 student 1) in
  let out := book_event rt_full w2 student 1 "ticket-0002" in
  snd out = Json (Booked 2 "ticket-0002" None) 201
  /\ map (fun b => (Booking.id b, Booking.status b)) (bookings (db (fst out)))
     = [(1, "cancelled"); (2, "pending")].
Proof. vm_compute. split; reflexivity. Qed.

Lemma organizer_approve_outcome_witness :
  exists b',
    get_booking (db (fst (organizer_approve_booking rt_full booked_world
                            organizer 1))) 1 = Some b'
    /\ Booking.organizer_approved b' = true
    /\ Booking.status b' = "pending".
Proof.
  destruct (organizer_approve_outcome rt_full booked_world organizer 1
              pending_seat eq_refl)
    as (b' & Hget & Ho & _ & Hiff & Hst & _).
  - right. split; [reflexivity|]. exists tech_talk. now split.
  - exists b'. repeat split; try assumption.
    destruct Hst as [Hst|Hst]; [exact Hst|].
    apply Hiff in Hst. destruct Hst; discriminate.
Defined.

(** The organizer has approved the student's booking on [recital], which
    requires faculty approval. *)
Definition awaiting_faculty : Booking.t :=
  Booking.mk 1 "ticket-0001" 3 2 "pending" false true None None.

Definition awaiting_world : World :=
  mkWorld (mkDB seed_users seed_halls seed_events [awaiting_faculty]) [].

Lemma faculty_approve_outcome_witness :
  exists b',
    get_booking (db (fst (faculty_approve_booking rt_full awaiting_world
                            faculty 1))) 1 = Some b'
    /\ Booking.faculty_approved b' = true
    /\ Booking.status b' = "confirmed".
Proof.
  destruct (proj2 (faculty_approve_outcome rt_full awaiting_world faculty 1
                     awaiting_faculty recital eq_refl eq_refl eq_refl)
              eq_refl)
    as (b' & Hget & Hf & _ & Hiff & _).
  exists b'. repeat split; try assumption.
  apply Hiff. now left.
Defined.

Lemma seed_schedule : no_double_booking (db seed_world).
Proof.
  intros e1 e2 H1 H2 Hid Hs1 Hs2 Hh. cbn in H1, H2.
  destruct H1 as [<-|[<-|[<-|[]]]]; destruct H2 as [<-|[<-|[<-|[]]]];
    cbn in *; congruence.
Qed.

Lemma handlers_keep_schedule_witness :
  no_double_booking
    (db (fst (create_event rt_full seed_world organizer new_event_form)))
  /\ no_double_booking (db (fst (admin_approve_event seed_world admin 3))).
Proof.
  pose proof (handlers_keep_schedule seed_world seed_schedule) as H.
  split.
  - exact (proj1 H rt_full organizer new_event_form).
  - exact (proj1 (proj2 H) admin 3).
Defined.

(** The admin approves the pending [cultural_evening]: its hall is free and
    no approved event of the hall overlaps it. *)
Example admin_approve_event_scenarios :
  option_map Event.status
    (get_event (db (fst (admin_approve_event seed_world admin 3))) 3)
  = Some "approved"
  /\ admin_approve_event seed_world organizer 3
     = (seed_world,
        Redirect "index" None "Access denied: insufficient permissions")
  /\ admin_approve_event seed_world admin 9 = (seed_world, Abort 404).
Proof. vm_compute. repeat split. Qed.

Lemma block_hall_stops_admission_witness :
  fst (create_event rt_full
         (fst (admin_block_hall seed_world admin 1 (Some "block")))
         organizer new_event_form)
  = fst (admin_block_hall seed_world admin 1 (Some "block"))
  /\ option_map Hall.status
       (get_hall (db (fst (admin_block_hall seed_world admin 3 None))) 3)
     = Some "free".
Proof.
  split.
  - exact (proj1 (block_hall_stops_admission seed_world admin 1 hall_a
                    eq_refl eq_refl)
             rt_full organizer new_event_form eq_refl).
  - apply (proj2 (proj2 (proj2 (proj2
             (block_hall_stops_admission seed_world admin 3 hall_closed
                eq_refl eq_refl))))).
    discriminate.
Defined.

(** The organizer turns the faculty requirement of [recital] off. *)
Definition recital_edit : EventForm.t :=
  EventForm.mk (Some "Recital") None None absent (value 40) absent absent
               None None None absent.

Lemma edit_event_outcome_witness :
  exists ev',
    get_event (db (fst (edit_event seed_world organizer 2 recital_edit))) 2
    = Some ev'
    /\ Event.requires_faculty_approval ev' = false
    /\ Event.capacity ev' = Some 40
    /\ Event.status ev' = "approved".
Proof.
  destruct (proj1 (proj2 (edit_event_outcome seed_world organizer 2
                            recital_edit recital (or_introl eq_refl)
                            eq_refl))
              "Recital" (or_introl eq_refl) eq_refl)
    as (ev' & Hget & Hreq & Hcap & _ & _ & _ & _ & _ & Hst & _).
  - discriminate.
  - cbn. lia.
  - exists ev'. repeat split; assumption.
Defined.

(** The same edit with a capacity of 2^63 is not stored. *)
Example edit_event_oversized :
  edit_event seed_world organizer 2
    (EventForm.mk (Some "Recital") None None absent (value (2 ^ 63)) absent
                  absent None None None absent)
  = (seed_world, Abort 500).
Proof. vm_compute. reflexivity. Qed.

Lemma seed_emails_unique : NoDup (emails (db seed_world)).
Proof.
  cbn. repeat constructor; cbn; intuition discriminate.
Qed.

Definition admin_signup : RegisterForm :=
  mkRegisterForm (Some "admin") (Some "visitor@example.com") (Some "secret")
                 (Some "Visitor").

Lemma accounts_keep_emails_unique_witness :
  NoDup (emails (db (fst (register seed_world admin_signup)))).
Proof.
  exact (proj1 (accounts_keep_emails_unique seed_world admin_signup
                  seed_emails_unique)).
Defined.

(** A visitor registers as an admin; a second registration with the same
    email is turned down. *)
Example register_scenarios :
  let w1 := fst (register seed_world admin_signup) in
  map (fun u => (User.id u, User.role u, User.active u))
      (skipn 4 (users (db w1)))
  = [(5, "admin", true)]
  /\ register w1 admin_signup
     = (w1, Redirect "register" None "Email already registered")
  /\ register seed_world (mkRegisterForm None (Some "a@example.com") None None)
     = (seed_world, Redirect "register" None "Email and password required").
Proof. vm_compute. repeat split. Qed.

(** Saving the mail form with a blank password field keeps the stored
    password; here [strip] removes nothing. *)
Example store_email_settings_scenario :
  let stored := [mkSetting 1 "MAIL_PASSWORD" (Some "hunter2")] in
  let form pw :=
    mkMailForm (Some "smtp.example.com") (Some "587") (Some "mailer") pw
               (Some "on") None (Some "noreply@example.com") in
  let read settings key := get_setting settings key None in
  read (store_email_settings (fun s => s) stored (form (Some "")))
       "MAIL_PASSWORD" = Some "hunter2"
  /\ read (store_email_settings (fun s => s) stored (form None))
          "MAIL_PASSWORD" = Some "hunter2"
  /\ read (store_email_settings (fun s => s) stored (form (Some "new")))
          "MAIL_PASSWORD" = Some "new"
  /\ read (store_email_settings (fun s => s) stored (form None))
          "MAIL_USE_TLS" = Some "1"
  /\ read (store_email_settings (fun s => s) stored (form None))
          "MAIL_USE_SSL" = Some "0"
  /\ List.length (store_email_settings (fun s => s) stored (form None)) = 7%nat.
Proof. vm_compute. repeat split. Qed.
